(** * ClaraVerse remote-server installer ([install.py])

    A shallow embedding of [ClaraVerseInstaller] and the properties of its
    selection prompt, environment probes, deployment driver and health
    poller.

    Conventions of the model.
    - Python [str] values are Rocq strings; a character is a code point in
      U+0000..U+00FF (Rocq's 8-bit [ascii]).  The string builtins the
      installer calls ([strip], [upper], [isdigit], [int], [replace], [in])
      are transcribed for that range.
    - Everything outside the process is an [Env]: the result of each child
      process, the answer of each HTTP request, the resolved host address.
      Operator input is a finite script of console lines held in the state.
    - Every method is a computation in the monad [M]: it reads the [Env],
      threads the installer object, may raise a Python exception, and
      writes the sequence of externally visible [event]s it performs.
    - ANSI colour codes and the decorative banners are left out of the
      printed messages, and the check-mark glyphs are written in ASCII;
      a block of fixed text is one [Print] event. *)

From Stdlib Require Import List String Ascii ZArith NArith Bool Lia.
Import ListNotations.
Local Open Scope string_scope.
Local Open Scope list_scope.

Set Implicit Arguments.

(** ** Python string builtins over U+0000..U+00FF *)

Module Py.

Definition code (c : ascii) : N := N_of_ascii c.

Definition chars (s : string) : list ascii := list_ascii_of_string s.

Definition str (l : list ascii) : string := string_of_list_ascii l.

(** [str.isspace] for one character: TAB..CR, FS..US, SPACE, NEL, NBSP. *)
Definition isspace (c : ascii) : bool :=
  let n := code c in
  ((9 <=? n) && (n <=? 13) || (28 <=? n) && (n <=? 32)
   || (n =? 133) || (n =? 160))%N.

(** [str.isdigit] for one character: the decimal digits and the
    superscript digits U+00B2, U+00B3, U+00B9. *)
Definition isdigit (c : ascii) : bool :=
  let n := code c in
  ((48 <=? n) && (n <=? 57) || (n =? 178) || (n =? 179) || (n =? 185))%N.

(** The characters [int] accepts as a one-character literal. *)
Definition isdecimal (c : ascii) : bool :=
  let n := code c in ((48 <=? n) && (n <=? 57))%N.

(** [int(char)] on a one-character string: [None] stands for [ValueError]. *)
Definition int (c : ascii) : option Z :=
  if isdecimal c then Some (Z.of_N (code c) - 48)%Z else None.

(** [str.upper] of one character, as the code points of the result (three
    characters of the range have an upper case outside of it or of length
    two). *)
Definition upper_char (c : ascii) : list N :=
  let n := code c in
  if ((97 <=? n) && (n <=? 122))%N then [(n - 32)%N]
  else if (n =? 181)%N then [924%N]
  else if (n =? 223)%N then [83%N; 83%N]
  else if ((224 <=? n) && (n <=? 254) && negb (n =? 247))%N then [(n - 32)%N]
  else if (n =? 255)%N then [376%N]
  else [n].

Definition upper (s : list ascii) : list N := flat_map upper_char s.

Fixpoint lstrip (s : list ascii) : list ascii :=
  match s with
  | c :: s' => if isspace c then lstrip s' else s
  | [] => []
  end.

Definition rstrip (s : list ascii) : list ascii := rev (lstrip (rev s)).

Definition strip (s : list ascii) : list ascii := rstrip (lstrip s).

(** [s.replace(c, '')] for a one-character [c]. *)
Definition remove_char (c : ascii) (s : list ascii) : list ascii :=
  filter (fun x => negb (Ascii.eqb x c)) s.

Fixpoint startswith (p s : list ascii) : bool :=
  match p, s with
  | [], _ => true
  | _ :: _, [] => false
  | a :: p', b :: s' => Ascii.eqb a b && startswith p' s'
  end.

(** [needle in hay]. *)
Fixpoint contains (needle hay : list ascii) : bool :=
  startswith needle hay
  || match hay with
     | [] => false
     | _ :: hay' => contains needle hay'
     end.

(** [sep.join(l)]. *)
Fixpoint join (sep : string) (l : list string) : string :=
  match l with
  | [] => EmptyString
  | [x] => x
  | x :: l' => String.append x (String.append sep (join sep l'))
  end.

End Py.

(** ** The service catalog *)

Record Service : Type := mkService {
  name : string;
  description : string;
  port : Z;
  health_path : string;
  selected : bool
}.

(** [self.services]: a dict in insertion order, as an association list. *)
Definition catalog : Type := list (string * Service).

Definition set_selected (b : bool) (s : Service) : Service :=
  mkService (name s) (description s) (port s) (health_path s) b.

Definition initial_services : catalog :=
  [ ("clara_comfyui",
     mkService "ComfyUI" "AI Image Generation Powerhouse" 8188 "/" false);
    ("clara_python",
     mkService "Python Backend" "Advanced AI Processing APIs" 5001 "/health" false);
    ("clara_n8n",
     mkService "n8n Workflows" "Automation Made Simple" 5678 "/healthz" false) ].

Definition keys (d : catalog) : list string := map fst d.

Definition values (d : catalog) : list Service := map snd d.

(** [for service in d.values(): service['selected'] = b]. *)
Definition set_all (b : bool) (d : catalog) : catalog :=
  map (fun kv => (fst kv, set_selected b (snd kv))) d.

(** [d[key]['selected'] = True]. *)
Definition select_key (key : string) (d : catalog) : catalog :=
  map (fun kv => if String.eqb (fst kv) key
                 then (fst kv, set_selected true (snd kv)) else kv) d.

(** [[service_id for service_id, service in d.items() if service['selected']]]. *)
Definition selected_ids (d : catalog) : list string :=
  keys (filter (fun kv => selected (snd kv)) d).

(** [any(service['selected'] for service in d.values())]. *)
Definition any_selected (d : catalog) : bool :=
  existsb selected (values d).

(** Keys of a dict are pairwise distinct. *)
Definition wf_catalog (d : catalog) : Prop := NoDup (keys d).

(** ** The world outside the process *)

(** What [subprocess.run] does with a command: it completes with a return
    code and a captured stdout, it exceeds its timeout, or it raises (the
    executable is missing, the output cannot be decoded, ...). *)
Inductive proc_result : Type :=
| Completed (returncode : Z) (stdout : string)
| TimeoutExpired
| ProcError (msg : string).

(** What an HTTP GET yields: a response status, a network error, or no
    answer within the request timeout.  ([urlopen] raises for the last two
    and for error statuses; the caller's bare [except] treats all alike.) *)
Inductive http_result : Type :=
| Status (status_code : Z)
| NetworkError
| RequestTimeout.

Record Env : Type := mkEnv {
  (** result of running a command *)
  subprocess_run : list string -> proc_result;
  (** answer of [http://localhost:{port}{path}] during a polling attempt *)
  urlopen : nat -> Z -> string -> http_result;
  (** [socket.gethostbyname(socket.gethostname())], [None] when it raises *)
  gethostbyname : option string;
  (** whether [webbrowser.open] returns without raising *)
  browser_ok : bool
}.

(** One entry of the operator's console script: a line typed at a prompt,
    or an interrupt.  An exhausted script is end of file. *)
Inductive console_input : Type :=
| Line (text : string)
| CtrlC.

Inductive exn : Type :=
| KeyboardInterrupt
| EOFError
| ValueError (literal : ascii).

Definition exn_message (e : exn) : string :=
  match e with
  | KeyboardInterrupt => EmptyString
  | EOFError => "EOF when reading a line"
  | ValueError c =>
      String.append "invalid literal for int() with base 10: '"
                    (String c "'")
  end.

(** Externally visible actions, in the order the installer performs them. *)
Inductive event : Type :=
| ClearScreen
| Print (msg : string)
| SectionHeader (title : string)
| MenuLine (index : nat) (service_name service_description : string) (service_port : Z)
| ProgressBar (step total : nat)
| LogInfo (msg : string)
| LogWarning (msg : string)
| LogError (msg : string)
| Exec (command : list string) (capture_output : bool)
| ReadLine
| Sleep (seconds : Z)
| UrlOpen (url_port : Z) (url_path : string)
| ServiceUrl (service_name host : string) (service_port : Z)
| OpenBrowser (host : string) (service_port : Z).

(** [self] together with the unread part of the console script. *)
Record Installer : Type := mkInstaller {
  services : catalog;
  docker_available : bool;
  gpu_available : bool;
  os_type : string;
  stdin : list console_input
}.

Definition with_services (d : catalog) (st : Installer) : Installer :=
  mkInstaller d (docker_available st) (gpu_available st) (os_type st) (stdin st).

Definition with_docker_available (b : bool) (st : Installer) : Installer :=
  mkInstaller (services st) b (gpu_available st) (os_type st) (stdin st).

Definition with_gpu_available (b : bool) (st : Installer) : Installer :=
  mkInstaller (services st) (docker_available st) b (os_type st) (stdin st).

Definition with_stdin (i : list console_input) (st : Installer) : Installer :=
  mkInstaller (services st) (docker_available st) (gpu_available st) (os_type st) i.

(** [ClaraVerseInstaller.__init__] on a host of the given OS, with the
    console script the operator will type. *)
Definition init (os : string) (script : list console_input) : Installer :=
  mkInstaller initial_services false false os script.

(** ** The installer monad: environment, state, exceptions, event log *)

Definition M (A : Type) : Type :=
  Env -> Installer -> (exn + A) * Installer * list event.

Definition ret {A} (a : A) : M A := fun _ st => (inr a, st, []).

Definition bind {A B} (m : M A) (k : A -> M B) : M B :=
  fun env st =>
    match m env st with
    | (inr a, st1, t1) =>
        match k a env st1 with
        | (r, st2, t2) => (r, st2, t1 ++ t2)
        end
    | (inl e, st1, t1) => (inl e, st1, t1)
    end.

Definition raise {A} (e : exn) : M A := fun _ st => (inl e, st, []).

Definition emit (e : event) : M unit := fun _ st => (inr tt, st, [e]).

Definition ask : M Env := fun env st => (inr env, st, []).

Definition get : M Installer := fun _ st => (inr st, st, []).

Definition modify (f : Installer -> Installer) : M unit :=
  fun _ st => (inr tt, f st, []).

Declare Scope installer_scope.
Delimit Scope installer_scope with M.
Notation "x <- m ;; k" := (bind m (fun x => k))
  (at level 61, m at next level, right associativity) : installer_scope.
Notation "m ;; k" := (bind m (fun _ => k))
  (at level 61, right associativity) : installer_scope.
Local Open Scope installer_scope.

(** Accessors of a finished computation. *)
Definition result {A} (o : (exn + A) * Installer * list event) : exn + A :=
  fst (fst o).
Definition final {A} (o : (exn + A) * Installer * list event) : Installer :=
  snd (fst o).
Definition trace {A} (o : (exn + A) * Installer * list event) : list event :=
  snd o.

(** ** Logging and presentation helpers *)

Definition clear_screen : M unit := emit ClearScreen.

Definition print (msg : string) : M unit := emit (Print msg).

Definition sleep (seconds : Z) : M unit := emit (Sleep seconds).

Definition print_banner : M unit :=
  print "REMOTE SERVER DEPLOYMENT" ;; sleep 2.

Definition print_section_header (title : string) : M unit :=
  emit (SectionHeader title).

Definition print_progress (step total : nat) : M unit :=
  emit (ProgressBar step total).

Definition log_info (msg : string) : M unit := emit (LogInfo msg).
Definition log_warning (msg : string) : M unit := emit (LogWarning msg).
Definition log_error (msg : string) : M unit := emit (LogError msg).

(** [for x in l: body x]. *)
Fixpoint for_each {A} (l : list A) (body : A -> M unit) : M unit :=
  match l with
  | [] => ret tt
  | x :: l' => body x ;; for_each l' body
  end.

(** ** Environment prober *)

Definition run_command (command : list string) (capture_output : bool)
  : M (bool * string) :=
  env <- ask ;;
  emit (Exec command capture_output) ;;
  match subprocess_run env command with
  | Completed returncode stdout =>
      if capture_output
      then ret (Z.eqb returncode 0, Py.str (Py.strip (Py.chars stdout)))
      else ret (Z.eqb returncode 0, EmptyString)
  | TimeoutExpired => ret (false, "Command timed out")
  | ProcError msg => ret (false, msg)
  end.

Definition print_docker_install_instructions : M unit :=
  st <- get ;;
  print "Please install Docker:" ;;
  if String.eqb (os_type st) "windows" then
    print "   1. Download Docker Desktop for Windows" ;;
    print "   2. https://docs.docker.com/desktop/windows/install/"
  else if String.eqb (os_type st) "darwin" then
    print "   1. Download Docker Desktop for Mac" ;;
    print "   2. https://docs.docker.com/desktop/mac/install/"
  else
    print "   1. Install Docker Engine: sudo apt install docker.io" ;;
    print "   2. Start Docker: sudo systemctl start docker".

Definition check_docker : M bool :=
  print "[*] Checking Docker installation..." ;;
  r <- run_command ["docker"; "--version"] true ;;
  if negb (fst r) then
    log_error "Docker is not installed or not in PATH" ;;
    print_docker_install_instructions ;;
    ret false
  else
    r <- run_command ["docker"; "ps"] true ;;
    if negb (fst r) then
      log_error "Docker daemon is not running" ;;
      log_warning "Please start Docker Desktop and try again" ;;
      ret false
    else
      log_info (String.append "Docker is available: " (snd r)) ;;
      ret true.

Definition check_gpu : M bool :=
  print "[*] Checking GPU availability..." ;;
  r <- run_command ["nvidia-smi"] true ;;
  if fst r && Py.contains (Py.chars "NVIDIA") (Py.chars (snd r)) then
    log_info "NVIDIA GPU detected - CUDA acceleration will be enabled" ;;
    ret true
  else
    log_warning "No NVIDIA GPU detected - using CPU mode" ;;
    ret false.

(** ** Selection prompt *)

(** The digit parser of [select_services]:
    [for char in ...: if char.isdigit(): idx = int(char) - 1; ...].
    An [int] failure leaves the flags set so far and propagates. *)
Fixpoint parse_selections (service_list : list string) (cs : list ascii)
    (d : catalog) : (exn + unit) * catalog :=
  match cs with
  | [] => (inr tt, d)
  | char :: cs' =>
      if Py.isdigit char then
        match Py.int char with
        | None => (inl (ValueError char), d)
        | Some n =>
            let idx := (n - 1)%Z in
            if ((0 <=? idx) && (idx <? Z.of_nat (List.length service_list)))%Z
            then parse_selections service_list cs'
                   (select_key (nth (Z.to_nat idx) service_list EmptyString) d)
            else parse_selections service_list cs' d
        end
      else parse_selections service_list cs' d
  end.

(** How one pass through the body of the [while True] loop ends. *)
Inductive round_exit : Type :=
| Break
| Continue
| Raise (e : exn).

(** The body of the [while True] loop, after [input] returned [line]. *)
Definition select_round (line : string) (d : catalog)
  : round_exit * catalog * list event :=
  let choice := Py.strip (Py.chars line) in
  if list_eq_dec N.eq_dec (Py.upper choice) [65%N] then
    (Break, set_all true d,
     [LogInfo "All services selected for deployment"])
  else
    match choice with
    | _ :: _ =>
        let d1 := set_all false d in
        let service_list := keys d1 in
        match parse_selections service_list
                (Py.remove_char " " (Py.remove_char "," choice)) d1 with
        | (inl e, d2) => (Raise e, d2, [])
        | (inr _, d2) =>
            if any_selected d2 then (Break, d2, [])
            else (Continue, d2,
                  [LogError "No valid services selected. Please try again."])
        end
    | [] => (Continue, d, [LogError "Please enter a selection."])
    end.

(** The [while True] loop: one [input] per pass; [input] raises [EOFError]
    at end of file and [KeyboardInterrupt] on an interrupt. *)
Fixpoint select_loop (script : list console_input) (d : catalog)
  : (exn + unit) * (catalog * list console_input) * list event :=
  match script with
  | [] => (inl EOFError, (d, []), [ReadLine])
  | CtrlC :: rest => (inl KeyboardInterrupt, (d, rest), [ReadLine])
  | Line line :: rest =>
      match select_round line d with
      | (Break, d', t) => (inr tt, (d', rest), ReadLine :: t)
      | (Raise e, d', t) => (inl e, (d', rest), ReadLine :: t)
      | (Continue, d', t) =>
          match select_loop rest d' with
          | (r, s, t') => (r, s, ReadLine :: t ++ t')
          end
      end
  end.

Definition prompt_loop : M unit :=
  fun _ st =>
    match select_loop (stdin st) (services st) with
    | (r, (d, rest), t) => (r, with_stdin rest (with_services d st), t)
    end.

(** [enumerate(l, start)]. *)
Fixpoint enumerate {A} (start : nat) (l : list A) : list (nat * A) :=
  match l with
  | [] => []
  | x :: l' => (start, x) :: enumerate (S start) l'
  end.

Definition select_services : M unit :=
  print_section_header "SERVICE SELECTION" ;;
  print "Please select which services you want to deploy:" ;;
  st <- get ;;
  for_each (enumerate 1 (values (services st)))
    (fun e => emit (MenuLine (fst e) (name (snd e)) (description (snd e))
                             (port (snd e)))) ;;
  print "   [A] All Services     - Deploy everything (Recommended)" ;;
  prompt_loop ;;
  print "Selected services:" ;;
  st <- get ;;
  for_each (values (services st))
    (fun service => if selected service
                    then print (String.append "  * " (name service))
                    else ret tt) ;;
  print EmptyString ;;
  sleep 2.

(** ** Deployment driver *)

Definition deploy_services : M bool :=
  print_section_header "DEPLOYMENT" ;;
  st <- get ;;
  let selected_services := selected_ids (services st) in
  match selected_services with
  | [] =>
      log_error "No services selected for deployment" ;;
      ret false
  | _ :: _ =>
      print (String.append "[*] Deploying selected services: "
                           (Py.join ", " selected_services)) ;;
      print "[*] Pulling Docker images (this may take several minutes)..." ;;
      let pull_cmd := ["docker"; "compose"; "pull"] ++ selected_services in
      r <- run_command pull_cmd false ;;
      if negb (fst r) then
        log_error "Failed to pull Docker images" ;;
        ret false
      else
        print "[*] Starting services..." ;;
        let up_cmd := ["docker"; "compose"; "up"; "-d"] ++ selected_services in
        r <- run_command up_cmd false ;;
        if negb (fst r) then
          log_error "Failed to start services" ;;
          ret false
        else
          log_info "Services started successfully" ;;
          ret true
  end.

(** ** Health poller *)

(** The request is issued during polling attempt [attempt]; every failure
    of [urlopen] is swallowed by the bare [except]. *)
Definition check_service_health (attempt : nat) (port : Z) (path : string)
  : M bool :=
  env <- ask ;;
  emit (UrlOpen port path) ;;
  match urlopen env attempt port path with
  | Status code => ret (Z.eqb code 200)
  | NetworkError => ret false
  | RequestTimeout => ret false
  end.

(** The inner [for service_id, service in self.services.items()] loop of
    one attempt; its value is [all_healthy]. *)
Fixpoint health_round (attempt : nat) (items : catalog) : M bool :=
  match items with
  | [] => ret true
  | (_, service) :: rest =>
      if negb (selected service) then health_round attempt rest
      else
        healthy <- check_service_health attempt (port service)
                                        (health_path service) ;;
        if negb healthy then ret false
        else health_round attempt rest
  end.

(** [for attempt in range(max_attempts): ...] followed by the statements
    after the loop. *)
Fixpoint poll (max_attempts : nat) (attempts : list nat) : M bool :=
  match attempts with
  | [] =>
      print "[!] Services are taking longer than expected to start" ;;
      log_info "You can check status with: docker compose ps" ;;
      ret true
  | attempt :: later =>
      st <- get ;;
      all_healthy <- health_round attempt (services st) ;;
      if all_healthy then
        print "[OK] All selected services are healthy and ready!" ;;
        ret true
      else
        print_progress (attempt + 1) max_attempts ;;
        sleep 5 ;;
        poll max_attempts later
  end.

Definition wait_for_services : M bool :=
  print_section_header "HEALTH CHECK" ;;
  print "[*] Waiting for services to become healthy..." ;;
  let max_attempts := 24%nat in
  poll max_attempts (seq 0 max_attempts).

(** ** Final summary *)

(** [input] inside [try: ... except: pass]: every exception is swallowed. *)
Definition input_or_pass : M bool :=
  fun _ st =>
    match stdin st with
    | Line _ :: rest => (inr true, with_stdin rest st, [ReadLine])
    | CtrlC :: rest => (inr false, with_stdin rest st, [ReadLine])
    | [] => (inr false, st, [ReadLine])
    end.

(** [show_success_message]: the fixed text, one line per selected service,
    and the offer to open the first selected service in a browser. *)
Definition show_success_message : M unit :=
  clear_screen ;;
  print "CLARAVERSE DEPLOYMENT SUCCESSFUL!" ;;
  print "Your selected ClaraVerse services are now running:" ;;
  env <- ask ;;
  st <- get ;;
  let local_ip := match gethostbyname env with
                  | Some ip => ip
                  | None => "localhost"
                  end in
  let chosen := filter selected (values (services st)) in
  for_each chosen
    (fun service => emit (ServiceUrl (name service) local_ip (port service))) ;;
  print "Quick Management Commands:" ;;
  print "System Specifications:" ;;
  (if gpu_available st
   then print "  - GPU: NVIDIA GPU with CUDA support"
   else print "  - Mode: CPU-only deployment") ;;
  print (String.append "  - Services: " (Py.join ", " (map name chosen))) ;;
  print "Thank you for using ClaraVerse! Happy creating!" ;;
  match chosen with
  | first_service :: _ =>
      entered <- input_or_pass ;;
      if entered then
        emit (OpenBrowser local_ip (port first_service)) ;;
        if browser_ok env
        then log_info (String.append "Browser opened to " (name first_service))
        else ret tt
      else ret tt
  | [] => ret tt
  end.

(** ** Main flow *)

(** The [try] block of [run]. *)
Definition run_body : M bool :=
  clear_screen ;;
  print_banner ;;
  print_section_header "SYSTEM VERIFICATION" ;;
  ok <- check_docker ;;
  modify (with_docker_available ok) ;;
  if negb ok then ret false
  else
    gpu <- check_gpu ;;
    modify (with_gpu_available gpu) ;;
    select_services ;;
    deployed <- deploy_services ;;
    if negb deployed then ret false
    else
      wait_for_services ;;
      show_success_message ;;
      ret true.

(** [run]: the [try] block with its two handlers. *)
Definition run : M bool :=
  fun env st =>
    match run_body env st with
    | (inr b, st', t) => (inr b, st', t)
    | (inl KeyboardInterrupt, st', t) =>
        (inr false, st', t ++ [Print "Installation cancelled by user"])
    | (inl e, st', t) =>
        (inr false, st', t ++ [LogError (String.append "Unexpected error: "
                                                       (exn_message e))])
    end.

(** [main] without arguments: the process exit code. *)
Definition main (env : Env) (os : string) (script : list console_input) : Z :=
  match result (run env (init os script)) with
  | inr true => 0
  | _ => 1
  end.

(** ** Event sequences used in the statements *)

Definition menu_events (d : catalog) : list event :=
  flat_map (fun e => [MenuLine (fst e) (name (snd e)) (description (snd e))
                               (port (snd e))])
           (enumerate 1 (values d)).

Definition chosen_events (d : catalog) : list event :=
  flat_map (fun service => if selected service
                           then [Print (String.append "  * " (name service))]
                           else [])
           (values d).

Definition prompt_header (d : catalog) : list event :=
  [SectionHeader "SERVICE SELECTION";
   Print "Please select which services you want to deploy:"]
  ++ menu_events d
  ++ [Print "   [A] All Services     - Deploy everything (Recommended)"].

Definition prompt_footer (d : catalog) : list event :=
  [Print "Selected services:"] ++ chosen_events d ++ [Print EmptyString; Sleep 2].


(** ** Vocabulary of the statements about the prompt *)

(** The submission the prompt takes for "all services": trimmed and
    upper-cased, it is the one letter [A]. *)
Definition all_key (line : string) : Prop :=
  Py.upper (Py.strip (Py.chars line)) = [65%N].

(** The submission is blank: nothing is left of it after trimming. *)
Definition blank (line : string) : Prop :=
  Py.strip (Py.chars line) = [].

(** The character is the decimal digit of the number [i]. *)
Definition names (c : ascii) (i : nat) : bool :=
  Py.isdecimal c && (N.to_nat (Py.code c) =? 48 + i)%nat.

(** The submission contains the decimal digit of [i]. *)
Definition mentions (line : string) (i : nat) : bool :=
  existsb (fun c => names c i) (Py.chars line).

(** The 1-based positions of a catalog of [n] entries that the digits of a
    submission name, each once. *)
Definition named_indices (n : nat) (line : string) : list nat :=
  filter (mentions line) (seq 1 n).

(** Every character of the submission that [isdigit] accepts is a decimal
    digit, so [int] accepts it too. *)
Definition int_safe (line : string) : Prop :=
  forall c, In c (Py.chars line) ->
            Py.isdigit c = true -> Py.isdecimal c = true.

(** The catalog with the flag of the entry at position [i], [i+1], ...
    replaced by [f i], [f (i+1)], ... *)
Fixpoint mark (f : nat -> bool) (i : nat) (d : catalog) : catalog :=
  match d with
  | [] => []
  | (key, service) :: d' => (key, set_selected (f i) service) :: mark f (S i) d'
  end.

(** The catalog with the flag of the entry at position [i], [i+1], ...
    raised where [f] holds and kept elsewhere. *)
Fixpoint mark_or (f : nat -> bool) (i : nat) (d : catalog) : catalog :=
  match d with
  | [] => []
  | (key, service) :: d' =>
      (key, set_selected (selected service || f i) service) :: mark_or f (S i) d'
  end.

(** What is left of a submission for the digit loop:
    [choice.replace(',', '').replace(' ', '')]. *)
Definition digits_of (choice : list ascii) : list ascii :=
  Py.remove_char " " (Py.remove_char "," choice).

(** ** Vocabulary of the statements about commands and deployment *)

(** A command succeeds when it completes with return code 0; a non-zero
    return code, a timeout and a failure to run are all failures. *)
Definition succeeds (env : Env) (command : list string) : Prop :=
  exists stdout, subprocess_run env command = Completed 0 stdout.

Definition command_ok (env : Env) (command : list string) : bool :=
  match subprocess_run env command with
  | Completed returncode _ => Z.eqb returncode 0
  | TimeoutExpired => false
  | ProcError _ => false
  end.

(** The second component of [run_command]'s result. *)
Definition command_output (env : Env) (command : list string)
    (capture_output : bool) : string :=
  match subprocess_run env command with
  | Completed _ stdout =>
      if capture_output then Py.str (Py.strip (Py.chars stdout)) else EmptyString
  | TimeoutExpired => "Command timed out"
  | ProcError msg => msg
  end.

Definition pull_command (ids : list string) : list string :=
  ["docker"; "compose"; "pull"] ++ ids.

Definition up_command (ids : list string) : list string :=
  ["docker"; "compose"; "up"; "-d"] ++ ids.

(** The event is the launch of a child process. *)
Definition is_exec (e : event) : bool :=
  match e with
  | Exec _ _ => true
  | _ => false
  end.

(** The commands launched, in order. *)
Definition commands (t : list event) : list (list string) :=
  flat_map (fun e => match e with
                     | Exec command _ => [command]
                     | _ => []
                     end) t.

(** ** Vocabulary of the statements about health polling *)

(** The descriptor passes its check during the attempt: the response
    status is exactly 200. *)
Definition healthy (env : Env) (attempt : nat) (service : Service) : bool :=
  match urlopen env attempt (port service) (health_path service) with
  | Status code => Z.eqb code 200
  | NetworkError => false
  | RequestTimeout => false
  end.

(** The descriptors a round iterates over, in catalog order: those the
    loop does not skip with [continue]. *)
Definition poll_targets (d : catalog) : list Service :=
  filter selected (values d).

(** The request a check of the descriptor issues. *)
Definition probe (service : Service) : event :=
  UrlOpen (port service) (health_path service).

(** Where the request of a check goes. *)
Definition endpoint (service : Service) : Z * string :=
  (port service, health_path service).

(** The longest prefix of passing descriptors together with the first
    failing one, if any. *)
Fixpoint upto_first_failure (ok : Service -> bool) (l : list Service)
  : list Service :=
  match l with
  | [] => []
  | service :: l' =>
      if ok service then service :: upto_first_failure ok l' else [service]
  end.

(** The descriptors checked in one round. *)
Definition checked (env : Env) (attempt : nat) (d : catalog) : list Service :=
  upto_first_failure (healthy env attempt) (poll_targets d).

Definition wait_header : list event :=
  [SectionHeader "HEALTH CHECK";
   Print "[*] Waiting for services to become healthy..."].

(** The events of a round that was not fully healthy: its requests, the
    progress line, the pause. *)
Definition failed_round (env : Env) (d : catalog) (attempt : nat)
  : list event :=
  map probe (checked env attempt d) ++ [ProgressBar (attempt + 1) 24; Sleep 5].

Definition timeout_report : list event :=
  [Print "[!] Services are taking longer than expected to start";
   LogInfo "You can check status with: docker compose ps"].

(** The pauses taken, in order. *)
Definition sleeps (t : list event) : list Z :=
  flat_map (fun e => match e with
                     | Sleep seconds => [seconds]
                     | _ => []
                     end) t.

(** The requests issued, in order. *)
Definition requests (t : list event) : list (Z * string) :=
  flat_map (fun e => match e with
                     | UrlOpen p path => [(p, path)]
                     | _ => []
                     end) t.

(** The number of rounds that ended with the progress line. *)
Definition progress_lines (t : list event) : list (nat * nat) :=
  flat_map (fun e => match e with
                     | ProgressBar step total => [(step, total)]
                     | _ => []
                     end) t.

(** ** Vocabulary of the statements about the main flow *)

Definition docker_version : list string := ["docker"; "--version"].
Definition docker_ps : list string := ["docker"; "ps"].
Definition nvidia_smi : list string := ["nvidia-smi"].

(** Both runtime probes succeed. *)
Definition docker_ok (env : Env) : bool :=
  command_ok env docker_version && command_ok env docker_ps.

(** The diagnostic succeeds and what [run_command] returns of its output
    contains the marker. *)
Definition gpu_ok (env : Env) : bool :=
  command_ok env nvidia_smi
  && Py.contains (Py.chars "NVIDIA")
                 (Py.chars (command_output env nvidia_smi true)).

(** What [run] does before the runtime probe. *)
Definition run_intro : list event :=
  [ClearScreen; Print "REMOTE SERVER DEPLOYMENT"; Sleep 2;
   SectionHeader "SYSTEM VERIFICATION"].

(** The installer after both probes, when the runtime probe passed. *)
Definition probed (env : Env) (st : Installer) : Installer :=
  with_gpu_available (gpu_ok env) (with_docker_available true st).

(** The selected subset of the catalog, in catalog order. *)
Definition selected_subset (d : catalog) : catalog :=
  filter (fun kv => selected (snd kv)) d.

(** The value [deploy_services] returns. *)
Definition deploy_ok (env : Env) (d : catalog) : bool :=
  match selected_ids d with
  | [] => false
  | ids => command_ok env (pull_command ids) && command_ok env (up_command ids)
  end.

(** The section headers printed, in order; each method of the flow prints
    its own on entry. *)
Definition headers (t : list event) : list string :=
  flat_map (fun e => match e with
                     | SectionHeader title => [title]
                     | _ => []
                     end) t.

(** ** The progress bar of [print_progress] *)

(** One character of the bar: the block or the dash. *)
Inductive bar_cell : Type :=
| Block
| Dash.

(** [filled = int(50 * step // total)], after [percentage = (step / total)
    * 100] has raised [ZeroDivisionError] for [total = 0] ([None]). *)
Definition progress_filled (step total : Z) : option Z :=
  if (total =? 0)%Z then None else Some (50 * step / total)%Z.

(** [bar = block * filled + '-' * (50 - filled)]; a string times a
    negative number is the empty string. *)
Definition progress_bar (step total : Z) : option (list bar_cell) :=
  match progress_filled step total with
  | Some filled =>
      Some (repeat Block (Z.to_nat filled) ++ repeat Dash (Z.to_nat (50 - filled)))
  | None => None
  end.

(** ** Vocabulary of the further statements *)

(** The browser windows opened, in order. *)
Definition browsers (t : list event) : list (string * Z) :=
  flat_map (fun e => match e with
                     | OpenBrowser host p => [(host, p)]
                     | _ => []
                     end) t.

(** The address the summary prints and the browser is sent to. *)
Definition local_ip (env : Env) : string :=
  match gethostbyname env with
  | Some ip => ip
  | None => "localhost"
  end.

(** What the handlers of [run] print for an exception. *)
Definition handler_event (e : exn) : event :=
  match e with
  | KeyboardInterrupt => Print "Installation cancelled by user"
  | _ => LogError (String.append "Unexpected error: " (exn_message e))
  end.

(** Whether the prompt, run on the installer's script and catalog, returns
    with a selection that pull and start both accept. *)
Definition selection_deploys (env : Env) (st : Installer) : bool :=
  match select_loop (stdin st) (services st) with
  | (inr _, (d, _), _) => deploy_ok env d
  | (inl _, _, _) => false
  end.

(** A program the installer starts other than through [run_command]: the
    screen clear of [clear_screen] ([os.system] with [cls] or [clear]) and
    the browser of the summary. *)
Inductive ui_program : Type :=
| ScreenClear
| Browser (host : string) (service_port : Z).

(** The programs started other than through [run_command], in order. *)
Definition ui_programs (t : list event) : list ui_program :=
  flat_map (fun e => match e with
                     | ClearScreen => [ScreenClear]
                     | OpenBrowser host p => [Browser host p]
                     | _ => []
                     end) t.
(** * Properties *)

(** ** Facts about the string builtins *)

Section StringFacts.

Import Py.

Lemma upper_char_nonempty (c : ascii) : upper_char c <> [].
Proof.
  unfold upper_char.
  repeat match goal with |- context [if ?b then _ else _] => destruct b end;
    discriminate.
Qed.

Lemma upper_char_A (c : ascii) :
  upper_char c = [65%N] -> c = "a"%char \/ c = "A"%char.
Proof.
  destruct c as [[] [] [] [] [] [] [] []]; vm_compute; intro H;
    solve [discriminate H | auto].
Qed.

Lemma upper_nil (s : list ascii) : upper s = [] -> s = [].
Proof.
  destruct s as [|c s]; [reflexivity|]. cbn. intro H.
  apply app_eq_nil in H. destruct H as [H _].
  now apply upper_char_nonempty in H.
Qed.

(** Only the one-letter strings [a] and [A] have upper case [A]. *)
Lemma upper_is_A (s : list ascii) :
  upper s = [65%N] <-> s = ["a"%char] \/ s = ["A"%char].
Proof.
  split.
  - destruct s as [|c s]; [discriminate|]. cbn. intro H.
    apply app_eq_unit in H. destruct H as [[H _]|[Hc Hs]].
    + now apply upper_char_nonempty in H.
    + apply upper_nil in Hs. subst s.
      destruct (upper_char_A _ Hc); subst; auto.
  - intros [->| ->]; reflexivity.
Qed.

Lemma existsb_filter_keep {A} (p q : A -> bool) (l : list A) :
  (forall x, p x = true -> q x = true) ->
  existsb p (filter q l) = existsb p l.
Proof.
  intro Hpq. induction l as [|x l IH]; [reflexivity|]. cbn.
  destruct (q x) eqn:Hq; cbn; rewrite IH; [reflexivity|].
  destruct (p x) eqn:Hp; [|reflexivity].
  apply Hpq in Hp. congruence.
Qed.

Lemma existsb_rev {A} (p : A -> bool) (l : list A) :
  existsb p (rev l) = existsb p l.
Proof.
  induction l as [|x l IH]; [reflexivity|]. cbn.
  rewrite existsb_app, IH. cbn. rewrite orb_false_r. apply orb_comm.
Qed.

Lemma existsb_lstrip (p : ascii -> bool) (s : list ascii) :
  (forall c, p c = true -> isspace c = false) ->
  existsb p (lstrip s) = existsb p s.
Proof.
  intro Hp. induction s as [|c s IH]; [reflexivity|]. cbn.
  destruct (isspace c) eqn:Hs; [|reflexivity].
  rewrite IH. destruct (p c) eqn:Hc; [|reflexivity].
  apply Hp in Hc. congruence.
Qed.

(** Stripping keeps every occurrence of a non-blank character. *)
Lemma existsb_strip (p : ascii -> bool) (s : list ascii) :
  (forall c, p c = true -> isspace c = false) ->
  existsb p (strip s) = existsb p s.
Proof.
  intro Hp. unfold strip, rstrip.
  now rewrite existsb_rev, existsb_lstrip, existsb_rev, existsb_lstrip.
Qed.

Lemma startswith_iff p s :
  startswith p s = true <-> exists post, s = p ++ post.
Proof.
  revert s. induction p as [|a p IH]; intro s.
  - split; [exists s; reflexivity | reflexivity].
  - destruct s as [|b s]; cbn.
    + split; [discriminate | intros [post H]; discriminate H].
    + rewrite andb_true_iff, IH. split.
      * intros [Hab [post ->]]. apply Ascii.eqb_eq in Hab. subst b.
        now exists post.
      * intros [post H]. inversion H. subst. split.
        -- apply Ascii.eqb_refl.
        -- now exists post.
Qed.

(** [needle in hay] holds exactly when [hay] splits around [needle]. *)
Lemma contains_iff m s :
  contains m s = true <-> exists pre post, s = pre ++ m ++ post.
Proof.
  induction s as [|b s IH].
  - cbn [contains]. rewrite orb_false_r, startswith_iff. split.
    + intros [post H]. now exists [], post.
    + intros (pre & post & H). destruct pre as [|x pre]; [|discriminate H].
      now exists post.
  - cbn [contains]. rewrite orb_true_iff, startswith_iff, IH. split.
    + intros [[post H]|(pre & post & H)].
      * now exists [], post.
      * exists (b :: pre), post. cbn. now rewrite H.
    + intros (pre & post & H). destruct pre as [|x pre].
      * left. now exists post.
      * right. inversion H. now exists pre, post.
Qed.

Lemma contains_rev m s : contains (rev m) (rev s) = contains m s.
Proof.
  apply eq_true_iff_eq. rewrite !contains_iff. split.
  - intros (pre & post & H). exists (rev post), (rev pre).
    apply (f_equal (@rev ascii)) in H.
    rewrite rev_involutive, !rev_app_distr, rev_involutive in H.
    now rewrite H, app_assoc.
  - intros (pre & post & ->). exists (rev post), (rev pre).
    now rewrite !rev_app_distr, app_assoc.
Qed.

Lemma contains_lstrip c m s :
  isspace c = false ->
  contains (c :: m) (lstrip s) = contains (c :: m) s.
Proof.
  intro Hc. induction s as [|x s IH]; [reflexivity|].
  cbn [lstrip]. destruct (isspace x) eqn:Hx; [|reflexivity].
  rewrite IH. cbn [contains startswith].
  destruct (Ascii.eqb_spec c x) as [->|_]; [congruence|reflexivity].
Qed.

(** Trimming does not change whether a string contains a needle that
    begins and ends with a non-blank character. *)
Lemma contains_strip m s c r c' r' :
  m = c :: r -> isspace c = false ->
  rev m = c' :: r' -> isspace c' = false ->
  contains m (strip s) = contains m s.
Proof.
  intros Hm Hc Hr Hc'. unfold strip, rstrip.
  rewrite <- (rev_involutive m) at 1. rewrite contains_rev, Hr.
  rewrite (@contains_lstrip c' _ _ Hc'), <- Hr, contains_rev, Hm.
  apply (@contains_lstrip c _ _ Hc).
Qed.

End StringFacts.

(** ** Reasoning about computations in [M] *)

Section MonadFacts.

Lemma bind_ok {A B} (m : M A) (k : A -> M B) env st a st1 t1 :
  m env st = (inr a, st1, t1) ->
  bind m k env st =
  (result (k a env st1), final (k a env st1), t1 ++ trace (k a env st1)).
Proof.
  intro H. unfold bind, result, final, trace. rewrite H.
  now destruct (k a env st1) as [[r st2] t2].
Qed.

Lemma bind_raise {A B} (m : M A) (k : A -> M B) env st e st1 t1 :
  m env st = (inl e, st1, t1) ->
  bind m k env st = (inl e, st1, t1).
Proof. intro H. unfold bind. now rewrite H. Qed.

(** A loop whose body only writes to the log. *)
Lemma for_each_log {A} (l : list A) (body : A -> M unit)
    (g : A -> list event) env st :
  (forall x, body x env st = (inr tt, st, g x)) ->
  for_each l body env st = (inr tt, st, flat_map g l).
Proof.
  intro Hb. induction l as [|x l IH]; [reflexivity|].
  cbn [for_each flat_map]. rewrite (bind_ok _ _ _ _ (Hb x)), IH.
  reflexivity.
Qed.

End MonadFacts.

(** Runs the first action of a sequence when it reduces to a result. *)
Ltac bind_step :=
  erewrite bind_ok by reflexivity; cbn [result final trace fst snd].

(** ** The selection prompt, as a function of the console script *)

Lemma select_services_unfold env st :
  select_services env st =
  match select_loop (stdin st) (services st) with
  | (inr _, (d, rest), t) =>
      (inr tt, with_stdin rest (with_services d st),
       prompt_header (services st) ++ t ++ prompt_footer d)
  | (inl e, (d, rest), t) =>
      (inl e, with_stdin rest (with_services d st),
       prompt_header (services st) ++ t)
  end.
Proof.
  unfold select_services, prompt_header, prompt_footer.
  unfold print_section_header, print, sleep.
  unfold bind at 1. cbn [emit]. unfold bind at 1. cbn [emit].
  unfold bind at 1. cbn [get].
  unfold bind at 1.
  rewrite (for_each_log _ _
             (fun e => [MenuLine (fst e) (name (snd e)) (description (snd e))
                                 (port (snd e))])) by reflexivity.
  unfold bind at 1. cbn [emit].
  unfold bind at 1. unfold prompt_loop.
  destruct (select_loop (stdin st) (services st)) as [[r [d rest]] t].
  destruct r as [e|[]].
  - unfold menu_events. cbn [app]. repeat rewrite <- app_assoc. reflexivity.
  - unfold bind at 1. cbn [emit]. unfold bind at 1. cbn [get].
    unfold bind at 1.
    rewrite (for_each_log _ _
               (fun service => if selected service
                               then [Print (String.append "  * " (name service))]
                               else [])).
    2:{ intro x. destruct (selected x); reflexivity. }
    unfold bind. cbn [emit]. unfold menu_events, chosen_events.
    cbn [services with_stdin with_services app].
    repeat rewrite <- app_assoc. cbn [app]. reflexivity.
Qed.

Lemma set_all_selected (b : bool) (d : catalog) :
  forall key service,
    In (key, service) (set_all b d) -> selected service = b.
Proof.
  intros key service Hin. unfold set_all in Hin.
  apply in_map_iff in Hin. destruct Hin as [[k s] [Heq _]].
  inversion Heq. reflexivity.
Qed.

Lemma select_round_all_key (line : string) (d : catalog) :
  all_key line ->
  select_round line d =
  (Break, set_all true d, [LogInfo "All services selected for deployment"]).
Proof.
  unfold all_key, select_round. intro H.
  destruct (list_eq_dec N.eq_dec _ _) as [_|Hne]; [reflexivity|].
  now destruct Hne.
Qed.

(** C1 (as amended): a submission that, trimmed and upper-cased, is the
    menu key [A] ends the prompt loop on that very line and leaves every
    catalog entry selected, whatever the flags were before. *)
Theorem all_key_selects_every_service
    (env : Env) (st : Installer) (line : string) (rest : list console_input) :
  stdin st = Line line :: rest ->
  all_key line ->
  select_services env st =
    (inr tt,
     with_stdin rest (with_services (set_all true (services st)) st),
     prompt_header (services st)
     ++ [ReadLine; LogInfo "All services selected for deployment"]
     ++ prompt_footer (set_all true (services st)))
  /\ (forall key service,
        In (key, service) (services (final (select_services env st))) ->
        selected service = true)
  /\ keys (services (final (select_services env st))) = keys (services st)
  /\ stdin (final (select_services env st)) = rest.
Proof.
  intros Hin Hall.
  assert (E : select_services env st =
    (inr tt,
     with_stdin rest (with_services (set_all true (services st)) st),
     prompt_header (services st)
     ++ [ReadLine; LogInfo "All services selected for deployment"]
     ++ prompt_footer (set_all true (services st)))).
  { rewrite select_services_unfold, Hin. cbn [select_loop].
    rewrite (select_round_all_key _ Hall). reflexivity. }
  rewrite E. unfold final. cbn [fst snd with_stdin with_services services stdin].
  repeat split.
  - apply set_all_selected.
  - unfold keys, set_all. rewrite map_map. reflexivity.
Qed.

(** The letter [a] between blanks on the stock catalog. *)
Lemma all_key_selects_every_service_witness :
  let env := mkEnv (fun _ => TimeoutExpired) (fun _ _ _ => NetworkError) None false in
  let st := init "linux" [Line "  a "; Line "2"] in
  selected_ids (services (final (select_services env st)))
  = ["clara_comfyui"; "clara_python"; "clara_n8n"]
  /\ stdin (final (select_services env st)) = [Line "2"].
Proof.
  intros env st.
  destruct (@all_key_selects_every_service env st "  a " [Line "2"])
    as (E & _ & _ & Hrest).
  - reflexivity.
  - reflexivity.
  - split; [rewrite E; reflexivity | exact Hrest].
Defined.

(** C1 (as stated) fails: the word [all] is not the all-services key.  The
    round clears every flag, logs an error and asks again; at the end of
    the script the prompt has selected nothing. *)
Lemma word_all_is_not_the_all_key :
  select_round "all" (set_all true initial_services)
  = (Continue, initial_services,
     [LogError "No valid services selected. Please try again."])
  /\ select_round "ALL" initial_services
     = (Continue, initial_services,
        [LogError "No valid services selected. Please try again."])
  /\ result (select_services
               (mkEnv (fun _ => TimeoutExpired) (fun _ _ _ => NetworkError)
                      None false)
               (init "linux" [Line "all"]))
     = inl EOFError.
Proof. repeat split. Qed.

(** ** Flags by position *)

Section Marking.

Lemma set_selected_same (s : Service) : set_selected (selected s) s = s.
Proof. now destruct s. Qed.

Lemma keys_mark_or f i d : keys (mark_or f i d) = keys d.
Proof.
  revert i. induction d as [|[k s] d IH]; intro i; [reflexivity|].
  cbn. f_equal. apply IH.
Qed.

Lemma keys_set_all b d : keys (set_all b d) = keys d.
Proof. unfold keys, set_all. rewrite map_map. reflexivity. Qed.

Lemma mark_or_ext f g i d :
  (forall j, i <= j < i + List.length d -> f j = g j) ->
  mark_or f i d = mark_or g i d.
Proof.
  revert i. induction d as [|[k s] d IH]; intros i H; [reflexivity|].
  cbn [mark_or]. cbn [List.length] in H. rewrite (H i) by lia.
  f_equal. apply IH. intros j Hj. apply H. lia.
Qed.

Lemma mark_or_none i d : mark_or (fun _ => false) i d = d.
Proof.
  revert i. induction d as [|[k s] d IH]; intro i; [reflexivity|].
  cbn [mark_or]. rewrite orb_false_r, set_selected_same, IH. reflexivity.
Qed.

Lemma mark_or_twice f g i d :
  mark_or g i (mark_or f i d) = mark_or (fun j => f j || g j) i d.
Proof.
  revert i. induction d as [|[k s] d IH]; intro i; [reflexivity|].
  cbn [mark_or]. rewrite IH. cbn. now rewrite orb_assoc.
Qed.

Lemma mark_or_cleared f i d : mark_or f i (set_all false d) = mark f i d.
Proof.
  revert i. induction d as [|[k s] d IH]; intro i; [reflexivity|].
  cbn. f_equal. apply IH.
Qed.

Lemma mark_shift f i d : mark (fun j => f (S j)) i d = mark f (S i) d.
Proof.
  revert i. induction d as [|[k s] d IH]; intro i; [reflexivity|].
  cbn [mark]. now rewrite IH.
Qed.

Lemma mark_ext f g i d :
  (forall j, f j = g j) -> mark f i d = mark g i d.
Proof.
  intro H. revert i. induction d as [|[k s] d IH]; intro i; [reflexivity|].
  cbn [mark]. now rewrite H, IH.
Qed.

Lemma select_key_absent key d : ~ In key (keys d) -> select_key key d = d.
Proof.
  induction d as [|[k s] d IH]; intro H; [reflexivity|].
  cbn in *. destruct (String.eqb_spec k key) as [->|_].
  - exfalso. apply H. now left.
  - f_equal. apply IH. intro Hin. apply H. now right.
Qed.

(** With distinct keys, assigning through the key at position [j] raises
    the flag of the entry at position [j] and of no other. *)
Lemma select_key_nth d j i :
  wf_catalog d -> j < List.length d ->
  select_key (nth j (keys d) EmptyString) d = mark_or (fun x => Nat.eqb x (i + j)) i d.
Proof.
  unfold wf_catalog. revert j i.
  induction d as [|[k s] d IH]; intros j i Hnd Hj; [cbn in Hj; lia|].
  cbn [keys map fst] in Hnd. inversion Hnd as [|? ? Hk Hnd']; subst.
  destruct j as [|j].
  - cbn [keys map nth fst select_key mark_or snd].
    rewrite String.eqb_refl, Nat.add_0_r, Nat.eqb_refl, orb_true_r.
    fold (select_key k d). rewrite select_key_absent by exact Hk.
    f_equal. rewrite (mark_or_ext _ (fun _ => false)).
    + now rewrite mark_or_none.
    + intros x Hx. apply Nat.eqb_neq. lia.
  - cbn [keys map nth fst select_key mark_or snd List.length] in *.
    fold (keys d). fold (select_key (nth j (keys d) EmptyString) d).
    destruct (String.eqb_spec k (nth j (keys d) EmptyString)) as [E|_].
    + exfalso. apply Hk. rewrite E. apply nth_In. unfold keys.
      rewrite length_map. lia.
    + replace (Nat.eqb i (i + S j)) with false
        by (symmetry; apply Nat.eqb_neq; lia).
      rewrite orb_false_r, set_selected_same. f_equal.
      rewrite (IH j (S i)) by (assumption || lia).
      apply mark_or_ext. intros x _. f_equal. lia.
Qed.

Lemma selected_ids_mark f i d :
  selected_ids (mark f i d)
  = map (fun j => nth (j - i) (keys d) EmptyString) (filter f (seq i (List.length d))).
Proof.
  unfold selected_ids, keys.
  revert i. induction d as [|[k s] d IH]; intro i; [reflexivity|].
  cbn [mark filter snd selected set_selected List.length seq map fst].
  assert (T : map (fun j => nth (j - i) (k :: map fst d) EmptyString)
                  (filter f (seq (S i) (List.length d)))
              = map (fun j => nth (j - S i) (map fst d) EmptyString)
                    (filter f (seq (S i) (List.length d)))).
  { apply map_ext_in. intros j Hj. apply filter_In in Hj. destruct Hj as [Hj _].
    apply in_seq in Hj. replace (j - i) with (S (j - S i)) by lia.
    reflexivity. }
  destruct (f i); cbn [map fst]; rewrite T, IH, ?Nat.sub_diag; reflexivity.
Qed.

Lemma any_selected_mark f i d :
  any_selected (mark f i d) = existsb f (seq i (List.length d)).
Proof.
  revert i. induction d as [|[k s] d IH]; intro i; [reflexivity|].
  unfold any_selected in *. cbn. f_equal. apply IH.
Qed.

Lemma nth_error_mark f i d n key service :
  nth_error d n = Some (key, service) ->
  nth_error (mark f i d) n = Some (key, set_selected (f (i + n)) service).
Proof.
  revert i n. induction d as [|[k s] d IH]; intros i n H.
  - destruct n; discriminate.
  - destruct n as [|n]; cbn in *.
    + inversion H. now rewrite Nat.add_0_r.
    + rewrite (IH (S i) n H). now replace (i + S n) with (S i + n) by lia.
Qed.

End Marking.

(** ** The digit parser *)

Section Parser.

Import Py.

Lemma isdecimal_isdigit c : isdecimal c = true -> isdigit c = true.
Proof. unfold isdecimal, isdigit. cbv zeta. now intros ->. Qed.

Lemma names_isdecimal c i : names c i = true -> isdecimal c = true.
Proof. unfold names. now intros H%andb_prop. Qed.

Lemma isdecimal_not_space c : isdecimal c = true -> isspace c = false.
Proof.
  destruct c as [[] [] [] [] [] [] [] []]; vm_compute; intro H;
    solve [discriminate H | reflexivity].
Qed.

Lemma isdecimal_not_separator c :
  isdecimal c = true ->
  negb (Ascii.eqb c ",") = true /\ negb (Ascii.eqb c " ") = true.
Proof.
  destruct c as [[] [] [] [] [] [] [] []]; vm_compute; intro H;
    solve [discriminate H | split; reflexivity].
Qed.

Lemma In_lstrip c s : In c (lstrip s) -> In c s.
Proof.
  induction s as [|x s IH]; [easy|]. cbn.
  destruct (isspace x); [right; auto | easy].
Qed.

Lemma In_strip c s : In c (strip s) -> In c s.
Proof.
  unfold strip, rstrip. intro H.
  apply In_lstrip. apply in_rev. apply In_lstrip. now apply in_rev in H.
Qed.

Lemma In_digits_of c line :
  In c (digits_of (strip (chars line))) -> In c (chars line).
Proof.
  unfold digits_of, remove_char. intro H.
  apply filter_In in H. destruct H as [H _].
  apply filter_In in H. destruct H as [H _].
  now apply In_strip.
Qed.

Lemma mentions_digits_of line i :
  existsb (fun c => names c i) (digits_of (strip (chars line)))
  = mentions line i.
Proof.
  unfold digits_of, remove_char, mentions.
  rewrite !existsb_filter_keep.
  - apply existsb_strip. intros c H.
    apply isdecimal_not_space. exact (names_isdecimal _ _ H).
  - intros c H. apply isdecimal_not_separator. exact (names_isdecimal _ _ H).
  - intros c H. apply isdecimal_not_separator. exact (names_isdecimal _ _ H).
Qed.

(** On characters [int] accepts, the loop raises exactly the flags of the
    positions the digits name and keeps every other flag. *)
Lemma parse_selections_safe (cs : list ascii) (d : catalog) :
  wf_catalog d ->
  (forall c, In c cs -> isdigit c = true -> isdecimal c = true) ->
  parse_selections (keys d) cs d
  = (inr tt, mark_or (fun i => existsb (fun c => names c (S i)) cs) 0 d).
Proof.
  intro Hwf. remember (keys d) as ks eqn:Hks. revert d Hwf Hks.
  induction cs as [|c cs IH]; intros d Hwf Hks Hsafe.
  - cbn. now rewrite mark_or_none.
  - cbn [parse_selections].
    assert (Hsafe' : forall c0, In c0 cs -> isdigit c0 = true -> isdecimal c0 = true)
      by (intros c0 H0; apply Hsafe; now right).
    destruct (isdigit c) eqn:Hd.
    + assert (Hdec : isdecimal c = true) by (apply Hsafe; [now left | exact Hd]).
      unfold int. rewrite Hdec.
      assert (Hc : (48 <= code c <= 57)%N).
      { unfold isdecimal in Hdec. cbv zeta in Hdec.
        apply andb_prop in Hdec. destruct Hdec as [H1 H2].
        apply N.leb_le in H1. apply N.leb_le in H2. lia. }
      destruct ((0 <=? Z.of_N (code c) - 48 - 1)%Z
                && (Z.of_N (code c) - 48 - 1 <? Z.of_nat (List.length ks))%Z)
        eqn:Hr.
      * apply andb_prop in Hr. destruct Hr as [H1 H2].
        apply Z.leb_le in H1. apply Z.ltb_lt in H2.
        assert (Hlen : List.length ks = List.length d)
          by (subst ks; unfold keys; apply length_map).
        rewrite Hks at 2.
        rewrite (select_key_nth (d:=d) (j:=Z.to_nat (Z.of_N (code c) - 48 - 1)) 0)
          by (assumption || lia).
        rewrite IH.
        -- rewrite mark_or_twice. f_equal. apply mark_or_ext. intros j Hj.
           cbn [existsb]. f_equal. unfold names. rewrite Hdec. cbn [andb].
           destruct (Nat.eqb_spec j (0 + Z.to_nat (Z.of_N (code c) - 48 - 1)));
             destruct (Nat.eqb_spec (N.to_nat (code c)) (48 + S j)); 
             try reflexivity; lia.
        -- unfold wf_catalog. now rewrite keys_mark_or.
        -- now rewrite keys_mark_or.
        -- exact Hsafe'.
      * rewrite (IH d Hwf Hks Hsafe'). f_equal. apply mark_or_ext. intros j Hj.
        cbn [existsb]. unfold names at 2. rewrite Hdec. cbn [andb].
        assert (Hlen : List.length ks = List.length d)
          by (subst ks; unfold keys; apply length_map).
        destruct (Nat.eqb_spec (N.to_nat (code c)) (48 + S j)) as [E|_];
          [|reflexivity].
        exfalso. apply andb_false_iff in Hr. destruct Hr as [Hr|Hr].
        -- apply Z.leb_gt in Hr. lia.
        -- apply Z.ltb_ge in Hr. lia.
    + rewrite (IH d Hwf Hks Hsafe'). f_equal. apply mark_or_ext. intros j _.
      cbn [existsb]. unfold names at 2.
      destruct (isdecimal c) eqn:Hdec; [|reflexivity].
      apply isdecimal_isdigit in Hdec. congruence.
Qed.

End Parser.

(** ** Explicit selections *)

Lemma existsb_count {A} (f : A -> bool) (l : list A) :
  existsb f l = (0 <? List.length (filter f l))%nat.
Proof.
  induction l as [|x l IH]; [reflexivity|]. cbn.
  destruct (f x); [reflexivity|]. exact IH.
Qed.

Lemma select_round_explicit (line : string) (d : catalog) :
  wf_catalog d -> ~ blank line -> ~ all_key line -> int_safe line ->
  select_round line d =
  (if any_selected (mark (mentions line) 1 d) then Break else Continue,
   mark (mentions line) 1 d,
   if any_selected (mark (mentions line) 1 d) then []
   else [LogError "No valid services selected. Please try again."]).
Proof.
  unfold blank, all_key, int_safe, select_round.
  intros Hwf Hblank Hall Hsafe.
  destruct (list_eq_dec N.eq_dec _ _) as [E|_]; [contradiction|].
  destruct (Py.strip (Py.chars line)) as [|c0 choice] eqn:Hchoice;
    [contradiction|].
  rewrite <- Hchoice. fold (digits_of (Py.strip (Py.chars line))).
  rewrite parse_selections_safe.
  - rewrite mark_or_cleared.
    rewrite (mark_ext _ (fun j => mentions line (S j)))
      by (intro j; apply mentions_digits_of).
    rewrite mark_shift.
    now destruct (any_selected (mark (mentions line) 1 d)).
  - unfold wf_catalog. now rewrite keys_set_all.
  - intros c Hc. apply Hsafe. now apply In_digits_of.
Qed.

(** C2 (as amended): a submission that is not blank, is not the [A] key,
    and whose [isdigit] characters are all decimal digits replaces the
    selection: whatever the flags were, afterwards the entry at 1-based
    position [i] is selected exactly when the digit [i] occurs in the
    submission; digits naming no position change nothing; the [k] named
    services are the selected ones, and the loop ends iff [k > 0]. *)
Theorem explicit_selection_replaces_flags (line : string) (d : catalog) :
  wf_catalog d -> ~ blank line -> ~ all_key line -> int_safe line ->
  let after := snd (fst (select_round line d)) in
  let named := named_indices (List.length d) line in
  after = mark (mentions line) 1 d
  /\ (forall n key service,
        nth_error d n = Some (key, service) ->
        nth_error after n
        = Some (key, set_selected (mentions line (S n)) service))
  /\ selected_ids after = map (fun i => nth (i - 1) (keys d) EmptyString) named
  /\ List.length (selected_ids after) = List.length named
  /\ fst (fst (select_round line d))
     = (if (0 <? List.length named)%nat then Break else Continue).
Proof.
  intros Hwf Hblank Hall Hsafe after named. subst after named.
  rewrite (select_round_explicit Hwf Hblank Hall Hsafe). cbn [fst snd].
  assert (Hids : selected_ids (mark (mentions line) 1 d)
                 = map (fun i => nth (i - 1) (keys d) EmptyString)
                       (named_indices (List.length d) line))
    by apply selected_ids_mark.
  repeat split.
  - intros n key service Hn. now apply nth_error_mark.
  - exact Hids.
  - rewrite Hids. apply length_map.
  - rewrite any_selected_mark, existsb_count. reflexivity.
Qed.

(** The submission [1, 3 9] on the stock catalog with every flag set
    beforehand: the first and third service remain, the second is
    cleared, the digit 9 names nothing. *)
Lemma explicit_selection_replaces_flags_witness :
  selected_ids (snd (fst (select_round "1, 3 9" (set_all true initial_services))))
  = ["clara_comfyui"; "clara_n8n"]
  /\ fst (fst (select_round "1, 3 9" (set_all true initial_services))) = Break.
Proof.
  destruct (@explicit_selection_replaces_flags "1, 3 9"
              (set_all true initial_services))
    as (_ & _ & Hids & _ & Hexit).
  - repeat constructor; cbn; intro H;
      repeat (destruct H as [H|H]; [discriminate H|]); exact H.
  - intro H; vm_compute in H; discriminate H.
  - intro H; vm_compute in H; discriminate H.
  - intros c Hc. vm_compute in Hc.
    repeat (destruct Hc as [<-|Hc];
            [vm_compute; intro Hd; solve [reflexivity | discriminate Hd]|]).
    destruct Hc.
  - split; [exact Hids | exact Hexit].
Defined.

(** C2 (as stated) fails on a blank submission, which names no index: the
    round does not reset the catalog, and flags set before stay set. *)
Lemma blank_submission_keeps_flags :
  named_indices 3 EmptyString = []
  /\ select_round EmptyString (set_all true initial_services)
     = (Continue, set_all true initial_services,
        [LogError "Please enter a selection."])
  /\ selected_ids (snd (fst (select_round "   " (set_all true initial_services))))
     = ["clara_comfyui"; "clara_python"; "clara_n8n"].
Proof. repeat split. Qed.

(** A superscript digit passes [isdigit] and makes [int] raise: the prompt
    is left by [ValueError] with the flags raised so far, and [run] ends
    with the generic error report. *)
Example superscript_digit_raises :
  let two := ascii_of_nat 178 in
  fst (select_round (String "1" (String two "3")) initial_services)
  = (Raise (ValueError two), select_key "clara_comfyui" initial_services).
Proof. reflexivity. Qed.

(** ** Child processes *)

Lemma command_ok_succeeds env command :
  command_ok env command = true <-> succeeds env command.
Proof.
  unfold command_ok, succeeds. split.
  - destruct (subprocess_run env command) as [rc out| |msg]; try discriminate.
    intro H. apply Z.eqb_eq in H. subst rc. now exists out.
  - intros [out ->]. reflexivity.
Qed.

Lemma run_command_spec command capture env st :
  run_command command capture env st
  = (inr (command_ok env command, command_output env command capture), st,
     [Exec command capture]).
Proof.
  unfold run_command, command_ok, command_output, bind, ask, emit, ret.
  destruct (subprocess_run env command) as [rc out| |msg];
    [destruct capture|..]; reflexivity.
Qed.

(** ** Deployment driver *)

Lemma deploy_services_nothing_selected env st :
  selected_ids (services st) = [] ->
  deploy_services env st
  = (inr false, st,
     [SectionHeader "DEPLOYMENT";
      LogError "No services selected for deployment"]).
Proof.
  intro H. unfold deploy_services, bind, print_section_header, emit, get.
  rewrite H. reflexivity.
Qed.

Lemma deploy_services_selected env st :
  selected_ids (services st) <> [] ->
  let ids := selected_ids (services st) in
  deploy_services env st
  = (inr (command_ok env (pull_command ids) && command_ok env (up_command ids)),
     st,
     [SectionHeader "DEPLOYMENT";
      Print (String.append "[*] Deploying selected services: "
                           (Py.join ", " ids));
      Print "[*] Pulling Docker images (this may take several minutes)...";
      Exec (pull_command ids) false]
     ++ (if command_ok env (pull_command ids) then
           [Print "[*] Starting services...";
            Exec (up_command ids) false;
            if command_ok env (up_command ids)
            then LogInfo "Services started successfully"
            else LogError "Failed to start services"]
         else [LogError "Failed to pull Docker images"])).
Proof.
  intros H ids. subst ids.
  unfold deploy_services, print_section_header, print, log_error, log_info.
  unfold bind at 1. cbn [emit]. unfold bind at 1. cbn [get].
  destruct (selected_ids (services st)) as [|id ids] eqn:Hids;
    [contradiction|].
  unfold bind at 1. cbn [emit]. unfold bind at 1. cbn [emit].
  unfold bind at 1. fold (pull_command (id :: ids)).
  rewrite run_command_spec. cbn [fst].
  destruct (command_ok env (pull_command (id :: ids))); cbn [negb andb].
  - unfold bind at 1. cbn [emit]. unfold bind at 1.
    fold (up_command (id :: ids)). rewrite run_command_spec. cbn [fst].
    destruct (command_ok env (up_command (id :: ids))); reflexivity.
  - reflexivity.
Qed.

(** The driver never touches the installer object. *)
Lemma deploy_services_final env st : final (deploy_services env st) = st.
Proof.
  destruct (selected_ids (services st)) as [|id ids] eqn:H.
  - now rewrite deploy_services_nothing_selected.
  - rewrite deploy_services_selected by (rewrite H; discriminate).
    reflexivity.
Qed.

Lemma no_flag_no_ids (d : catalog) :
  (forall key service, In (key, service) d -> selected service = false) ->
  selected_ids d = [].
Proof.
  unfold selected_ids, keys. induction d as [|[k s] d IH]; intro H;
    [reflexivity|].
  cbn. rewrite (H k s) by now left.
  apply IH. intros key service Hin. apply (H key service). now right.
Qed.

(** C10: invoked with no selection flag set, the driver reports failure
    and launches no command at all, neither pull nor start. *)
Theorem deploy_without_selection_runs_nothing (env : Env) (st : Installer) :
  (forall key service,
     In (key, service) (services st) -> selected service = false) ->
  deploy_services env st
  = (inr false, st,
     [SectionHeader "DEPLOYMENT";
      LogError "No services selected for deployment"])
  /\ commands (trace (deploy_services env st)) = []
  /\ forall e, In e (trace (deploy_services env st)) -> is_exec e = false.
Proof.
  intro H. apply no_flag_no_ids in H.
  rewrite (deploy_services_nothing_selected env st H).
  repeat split. intros e [<-|[<-|[]]]; reflexivity.
Qed.

Lemma deploy_without_selection_runs_nothing_witness :
  result (deploy_services
            (mkEnv (fun _ => Completed 0 EmptyString) (fun _ _ _ => Status 200) None true)
            (init "linux" []))
  = inr false.
Proof.
  destruct (@deploy_without_selection_runs_nothing
              (mkEnv (fun _ => Completed 0 EmptyString) (fun _ _ _ => Status 200) None true)
              (init "linux" [])) as [E _].
  - intros key service H. cbn in H.
    repeat (destruct H as [H|H]; [inversion H; reflexivity|]). destruct H.
  - now rewrite E.
Defined.

(** C6: when the pull command fails (non-zero return code, timeout or
    failure to run), the driver reports failure, and the pull, launched
    once, is the only command it launches: no start, no second attempt,
    no clean-up command. *)
Theorem pull_failure_stops_deployment (env : Env) (st : Installer) :
  let ids := selected_ids (services st) in
  ids <> [] ->
  ~ succeeds env (pull_command ids) ->
  result (deploy_services env st) = inr false
  /\ final (deploy_services env st) = st
  /\ trace (deploy_services env st)
     = [SectionHeader "DEPLOYMENT";
        Print (String.append "[*] Deploying selected services: "
                             (Py.join ", " ids));
        Print "[*] Pulling Docker images (this may take several minutes)...";
        Exec (pull_command ids) false;
        LogError "Failed to pull Docker images"]
  /\ commands (trace (deploy_services env st)) = [pull_command ids]
  /\ ~ In (up_command ids) (commands (trace (deploy_services env st))).
Proof.
  intros ids Hids Hfail. subst ids.
  rewrite (deploy_services_selected env st Hids).
  destruct (command_ok env (pull_command (selected_ids (services st)))) eqn:Hok.
  - apply command_ok_succeeds in Hok. contradiction.
  - repeat split. cbn. intros [H|[]].
    unfold pull_command, up_command in H. cbn in H. discriminate H.
Qed.

(** Two services selected and a pull that exits with code 1. *)
Lemma pull_failure_stops_deployment_witness :
  let env := mkEnv (fun _ => Completed 1 EmptyString) (fun _ _ _ => Status 200) None true in
  let st := with_services (set_all true initial_services) (init "linux" []) in
  commands (trace (deploy_services env st))
  = [["docker"; "compose"; "pull"; "clara_comfyui"; "clara_python"; "clara_n8n"]].
Proof.
  intros env st.
  destruct (@pull_failure_stops_deployment env st) as (_ & _ & _ & H & _).
  - discriminate.
  - intros [out H]. discriminate H.
  - exact H.
Defined.

(** ** Health poller *)

Section Poller.

Variable env : Env.

Lemma check_service_health_spec attempt service st :
  check_service_health attempt (port service) (health_path service) env st
  = (inr (healthy env attempt service), st, [probe service]).
Proof.
  unfold check_service_health, healthy, probe, bind, ask, emit, ret.
  destruct (urlopen env attempt (port service) (health_path service));
    reflexivity.
Qed.

(** One round: its verdict and the requests it issues. *)
Lemma health_round_spec attempt d st :
  health_round attempt d env st
  = (inr (forallb (healthy env attempt) (poll_targets d)), st,
     map probe (checked env attempt d)).
Proof.
  unfold checked, poll_targets, values.
  induction d as [|[k s] d IH]; [reflexivity|].
  cbn [health_round map snd filter].
  destruct (selected s); cbn [negb]; [|exact IH].
  unfold bind. rewrite check_service_health_spec.
  cbn [forallb upto_first_failure].
  destruct (healthy env attempt s); cbn [negb andb].
  - rewrite IH. reflexivity.
  - reflexivity.
Qed.

Lemma upto_first_failure_all ok l :
  forallb ok l = true -> upto_first_failure ok l = l.
Proof.
  induction l as [|s l IH]; [reflexivity|]. cbn.
  destruct (ok s); [|discriminate]. intro H. now rewrite IH.
Qed.

(** A round stops at the first failing descriptor. *)
Lemma upto_first_failure_stop ok before s after :
  forallb ok before = true -> ok s = false ->
  upto_first_failure ok (before ++ s :: after) = before ++ [s].
Proof.
  intros Hb Hs. induction before as [|x before IH]; cbn in *.
  - now rewrite Hs.
  - destruct (ok x); [|discriminate]. now rewrite IH.
Qed.

Lemma poll_first_round_healthy max_attempts attempt later st :
  forallb (healthy env attempt) (poll_targets (services st)) = true ->
  poll max_attempts (attempt :: later) env st
  = (inr true, st,
     map probe (poll_targets (services st))
     ++ [Print "[OK] All selected services are healthy and ready!"]).
Proof.
  intro H. cbn [poll]. unfold bind at 1. cbn [get]. unfold bind at 1.
  rewrite health_round_spec, H. unfold checked.
  rewrite (upto_first_failure_all _ _ H). reflexivity.
Qed.

Lemma poll_never_healthy max_attempts attempts st :
  (forall attempt, In attempt attempts ->
     forallb (healthy env attempt) (poll_targets (services st)) = false) ->
  poll max_attempts attempts env st
  = (inr true, st,
     flat_map (fun attempt =>
                 map probe (checked env attempt (services st))
                 ++ [ProgressBar (attempt + 1) max_attempts; Sleep 5])
              attempts
     ++ timeout_report).
Proof.
  induction attempts as [|a attempts IH]; intro H; [reflexivity|].
  cbn [poll]. unfold bind at 1. cbn [get]. unfold bind at 1.
  rewrite health_round_spec, (H a) by now left.
  unfold print_progress, sleep. unfold bind at 1. cbn [emit].
  unfold bind at 1. cbn [emit].
  rewrite IH by (intros b Hb; apply H; now right).
  cbn [flat_map app]. rewrite <- !app_assoc. reflexivity.
Qed.

(** The poller always returns [True] and leaves the installer as it was. *)
Lemma poll_total max_attempts attempts st :
  exists t, poll max_attempts attempts env st = (inr true, st, t).
Proof.
  induction attempts as [|a attempts [t IH]]; [eexists; reflexivity|].
  cbn [poll]. unfold bind at 1. cbn [get]. unfold bind at 1.
  rewrite health_round_spec.
  destruct (forallb (healthy env a) (poll_targets (services st))).
  - eexists; reflexivity.
  - unfold print_progress, sleep. unfold bind at 1. cbn [emit].
    unfold bind at 1. cbn [emit]. rewrite IH. eexists; reflexivity.
Qed.

Lemma wait_for_services_unfold st :
  wait_for_services env st
  = (result (poll 24 (seq 0 24) env st), final (poll 24 (seq 0 24) env st),
     wait_header ++ trace (poll 24 (seq 0 24) env st)).
Proof.
  unfold wait_for_services, print_section_header, print, wait_header.
  unfold bind at 1. cbn [emit]. unfold bind at 1. cbn [emit].
  destruct (poll 24 (seq 0 24) env st) as [[r s] t]. reflexivity.
Qed.

Lemma wait_for_services_total st :
  exists t, wait_for_services env st = (inr true, st, t).
Proof.
  rewrite wait_for_services_unfold.
  destruct (poll_total 24 (seq 0 24) st) as [t ->]. eexists; reflexivity.
Qed.

Lemma forallb_healthy_false attempt d key service :
  In (key, service) d -> selected service = true ->
  healthy env attempt service = false ->
  forallb (healthy env attempt) (poll_targets d) = false.
Proof.
  intros Hin Hsel Hbad.
  destruct (forallb (healthy env attempt) (poll_targets d)) eqn:E;
    [|reflexivity].
  rewrite forallb_forall in E. rewrite <- Hbad. symmetry. apply E.
  unfold poll_targets, values. apply filter_In. split; [|exact Hsel].
  apply in_map_iff. now exists (key, service).
Qed.

Lemma not_200_unhealthy attempt service :
  urlopen env attempt (port service) (health_path service) <> Status 200 ->
  healthy env attempt service = false.
Proof.
  unfold healthy.
  destruct (urlopen env attempt (port service) (health_path service))
    as [code| |]; try reflexivity.
  intro H. destruct (Z.eqb_spec code 200) as [->|]; [now destruct H|reflexivity].
Qed.

Lemma sleeps_probes l : sleeps (map probe l) = [].
Proof. induction l as [|s l IH]; [reflexivity|exact IH]. Qed.

Lemma progress_lines_probes l : progress_lines (map probe l) = [].
Proof. induction l as [|s l IH]; [reflexivity|exact IH]. Qed.

Lemma sleeps_app t1 t2 : sleeps (t1 ++ t2) = sleeps t1 ++ sleeps t2.
Proof. unfold sleeps. apply flat_map_app. Qed.

Lemma sleeps_failed_rounds d attempts :
  sleeps (flat_map (failed_round env d) attempts)
  = repeat 5%Z (List.length attempts).
Proof.
  induction attempts as [|a attempts IH]; [reflexivity|].
  cbn [flat_map]. unfold failed_round at 1.
  rewrite !sleeps_app, sleeps_probes, IH. reflexivity.
Qed.

End Poller.

Section PollerClaims.

Variable env : Env.

Lemma status_200_healthy attempt service :
  urlopen env attempt (port service) (health_path service) = Status 200 ->
  healthy env attempt service = true.
Proof. unfold healthy. now intros ->. Qed.

Lemma forallb_healthy_true attempt d :
  (forall key service,
     In (key, service) d -> selected service = true ->
     urlopen env attempt (port service) (health_path service) = Status 200) ->
  forallb (healthy env attempt) (poll_targets d) = true.
Proof.
  intro H. apply forallb_forall. intros s Hs.
  unfold poll_targets, values in Hs. apply filter_In in Hs.
  destruct Hs as [Hs Hsel]. apply in_map_iff in Hs.
  destruct Hs as [[k s'] [E Hin]]. cbn in E. subst s'.
  apply status_200_healthy. exact (H k s Hin Hsel).
Qed.

Lemma poll_targets_app d1 d2 :
  poll_targets (d1 ++ d2) = poll_targets d1 ++ poll_targets d2.
Proof. unfold poll_targets, values. now rewrite map_app, filter_app. Qed.

Lemma requests_probes l :
  requests (map probe l) = map endpoint l.
Proof.
  induction l as [|s l IH]; [reflexivity|]. cbn. now rewrite <- IH.
Qed.

(** C3: when every selected descriptor answers 200 during the first
    attempt, the poller returns after that one round: it requests each
    selected descriptor once, in catalog order, reports the services
    healthy, and neither pauses nor prints a progress line. *)
Theorem healthy_first_round_returns_at_once (st : Installer) :
  (forall key service,
     In (key, service) (services st) -> selected service = true ->
     urlopen env 0 (port service) (health_path service) = Status 200) ->
  wait_for_services env st
  = (inr true, st,
     wait_header
     ++ map probe (poll_targets (services st))
     ++ [Print "[OK] All selected services are healthy and ready!"])
  /\ sleeps (trace (wait_for_services env st)) = []
  /\ progress_lines (trace (wait_for_services env st)) = []
  /\ requests (trace (wait_for_services env st))
     = map endpoint (poll_targets (services st)).
Proof.
  intro H. apply forallb_healthy_true in H.
  assert (E : wait_for_services env st
              = (inr true, st,
                 wait_header
                 ++ map probe (poll_targets (services st))
                 ++ [Print "[OK] All selected services are healthy and ready!"])).
  { rewrite wait_for_services_unfold. cbn [seq].
    now rewrite (poll_first_round_healthy env 24 0 _ st H). }
  rewrite E. unfold trace. cbn [snd].
  split; [reflexivity|].
  unfold sleeps, progress_lines, requests. rewrite !flat_map_app.
  fold (sleeps (map probe (poll_targets (services st)))).
  fold (requests (map probe (poll_targets (services st)))).
  fold (progress_lines (map probe (poll_targets (services st)))).
  rewrite sleeps_probes, requests_probes, progress_lines_probes.
  cbn [wait_header flat_map app].
  rewrite app_nil_r. repeat split.
Qed.

(** C5: in a round, the first selected descriptor whose request yields
    anything but status 200 (an error status, a network error, a timeout)
    makes the round unhealthy and ends it: the requests of the round are
    those of the selected descriptors before it and its own, and none for
    a descriptor after it. *)
Theorem round_stops_at_first_failure
    (st : Installer) (attempt : nat)
    (before after : catalog) (key : string) (service : Service) :
  services st = before ++ (key, service) :: after ->
  selected service = true ->
  (forall k s,
     In (k, s) before -> selected s = true ->
     urlopen env attempt (port s) (health_path s) = Status 200) ->
  urlopen env attempt (port service) (health_path service) <> Status 200 ->
  health_round attempt (services st) env st
  = (inr false, st, map probe (poll_targets before) ++ [probe service])
  /\ requests (trace (health_round attempt (services st) env st))
     = map endpoint (poll_targets before)
       ++ [endpoint service]
  /\ checked env attempt (services st) = poll_targets before ++ [service].
Proof.
  intros Hd Hsel Hbefore Hbad.
  apply forallb_healthy_true in Hbefore. apply not_200_unhealthy in Hbad.
  assert (Hc : checked env attempt (services st)
               = poll_targets before ++ [service]).
  { unfold checked. rewrite Hd, poll_targets_app.
    change (poll_targets ((key, service) :: after))
      with (if selected service then service :: poll_targets after
            else poll_targets after).
    rewrite Hsel. now apply upto_first_failure_stop. }
  assert (Hv : forallb (healthy env attempt) (poll_targets (services st))
               = false).
  { apply (forallb_healthy_false env attempt (services st) key service);
      try assumption.
    rewrite Hd. apply in_or_app. right. now left. }
  rewrite health_round_spec, Hv, Hc, map_app. unfold trace. cbn [snd map].
  repeat split.
  unfold requests. rewrite flat_map_app.
  fold (requests (map probe (poll_targets before))).
  now rewrite requests_probes.
Qed.

End PollerClaims.

(** Every service selected and answering 200 at once. *)
Lemma healthy_first_round_returns_at_once_witness :
  let env := mkEnv (fun _ => TimeoutExpired) (fun _ _ _ => Status 200) None true in
  let st := with_services (set_all true initial_services) (init "linux" []) in
  requests (trace (wait_for_services env st))
  = [(8188%Z, "/"); (5001%Z, "/health"); (5678%Z, "/healthz")].
Proof.
  intros env st.
  destruct (@healthy_first_round_returns_at_once env st) as (_ & _ & _ & H).
  - reflexivity.
  - exact H.
Defined.

(** All three services selected; the second answers 503: the third is not
    requested. *)
Lemma round_stops_at_first_failure_witness :
  let env := mkEnv (fun _ => TimeoutExpired)
                   (fun _ p _ => if Z.eqb p 5001 then Status 503 else Status 200)
                   None true in
  let st := with_services (set_all true initial_services) (init "linux" []) in
  requests (trace (health_round 0 (services st) env st))
  = [(8188%Z, "/"); (5001%Z, "/health")].
Proof.
  intros env st.
  destruct (@round_stops_at_first_failure env st 0
              [("clara_comfyui",
                mkService "ComfyUI" "AI Image Generation Powerhouse" 8188 "/" true)]
              [("clara_n8n",
                mkService "n8n Workflows" "Automation Made Simple" 5678 "/healthz" true)]
              "clara_python"
              (mkService "Python Backend" "Advanced AI Processing APIs" 5001
                         "/health" true))
    as (_ & H & _).
  - reflexivity.
  - reflexivity.
  - intros k s [E|[]] _. inversion E. reflexivity.
  - discriminate.
  - exact H.
Defined.

(** ** Environment prober *)

Section Prober.

Variable env : Env.

Lemma print_docker_install_instructions_spec st :
  exists t,
    print_docker_install_instructions env st = (inr tt, st, t)
    /\ commands t = [] /\ headers t = [].
Proof.
  unfold print_docker_install_instructions, print, bind, get, emit.
  destruct (String.eqb (os_type st) "windows");
    [|destruct (String.eqb (os_type st) "darwin")];
    eexists; repeat split; reflexivity.
Qed.

Lemma check_docker_spec st :
  exists t,
    check_docker env st = (inr (docker_ok env), st, t)
    /\ commands t
       = (if command_ok env docker_version
          then [docker_version; docker_ps] else [docker_version])
    /\ headers t = [].
Proof.
  unfold check_docker, docker_ok, print, log_error, log_warning, log_info.
  fold docker_version. fold docker_ps.
  unfold bind at 1. cbn [emit]. unfold bind at 1.
  rewrite run_command_spec. cbn [fst snd].
  destruct (command_ok env docker_version); cbn [negb andb].
  - unfold bind at 1. rewrite run_command_spec. cbn [fst snd].
    destruct (command_ok env docker_ps); eexists; repeat split; reflexivity.
  - unfold bind at 1. cbn [emit]. unfold bind at 1.
    destruct (print_docker_install_instructions_spec st) as (t & -> & Ht & Hh).
    eexists. split; [reflexivity|]. cbn [ret app commands headers flat_map].
    fold (commands (t ++ [])). fold (headers (t ++ [])).
    rewrite app_nil_r, Ht, Hh. split; reflexivity.
Qed.

Lemma check_gpu_spec st :
  check_gpu env st
  = (inr (gpu_ok env), st,
     [Print "[*] Checking GPU availability..."; Exec nvidia_smi true;
      if gpu_ok env
      then LogInfo "NVIDIA GPU detected - CUDA acceleration will be enabled"
      else LogWarning "No NVIDIA GPU detected - using CPU mode"]).
Proof.
  unfold check_gpu, gpu_ok, print, log_info, log_warning.
  unfold bind at 1. cbn [emit]. unfold bind at 1.
  fold nvidia_smi. rewrite run_command_spec. cbn [fst snd].
  destruct (command_ok env nvidia_smi
            && Py.contains (Py.chars "NVIDIA")
                 (Py.chars (command_output env nvidia_smi true)));
    reflexivity.
Qed.

End Prober.

(** ** Main flow *)

Section MainFlow.

Variable env : Env.

Lemma deploy_services_total st :
  exists t,
    deploy_services env st = (inr (deploy_ok env (services st)), st, t).
Proof.
  unfold deploy_ok.
  destruct (selected_ids (services st)) as [|id ids] eqn:H.
  - rewrite (deploy_services_nothing_selected env st H). eexists; reflexivity.
  - rewrite deploy_services_selected by (rewrite H; discriminate).
    rewrite H. eexists; reflexivity.
Qed.

Lemma input_or_pass_spec st :
  exists b rest,
    input_or_pass env st = (inr b, with_stdin rest st, [ReadLine]).
Proof.
  unfold input_or_pass. destruct st as [d da ga os inp].
  destruct inp as [|[l|] rest]; cbn [stdin]; do 2 eexists; reflexivity.
Qed.

(** The summary never raises, launches no command and keeps the catalog. *)
Lemma show_success_message_total st :
  exists st' t,
    show_success_message env st = (inr tt, st', t)
    /\ services st' = services st.
Proof.
  unfold show_success_message, clear_screen, print, log_info.
  unfold bind at 1. cbn [emit]. unfold bind at 1. cbn [emit].
  unfold bind at 1. cbn [emit]. unfold bind at 1. cbn [ask].
  unfold bind at 1. cbn [get]. unfold bind at 1.
  rewrite (for_each_log _ _
             (fun service =>
                [ServiceUrl (name service)
                   match gethostbyname env with
                   | Some ip => ip
                   | None => "localhost"
                   end (port service)])) by reflexivity.
  unfold bind at 1. cbn [emit]. unfold bind at 1. cbn [emit].
  unfold bind at 1.
  assert (G : forall m1 m2,
            (if gpu_available st then emit m1 else emit m2) env st
            = (inr tt, st, [if gpu_available st then m1 else m2]))
    by (intros; destruct (gpu_available st); reflexivity).
  rewrite G. unfold bind at 1. cbn [emit]. unfold bind at 1. cbn [emit].
  destruct (filter selected (values (services st))) as [|first chosen].
  - do 2 eexists. split; reflexivity.
  - unfold bind at 1.
    destruct (input_or_pass_spec st) as (b & rest & ->).
    destruct b; [|do 2 eexists; split; reflexivity].
    unfold bind at 1. cbn [emit].
    destruct (browser_ok env); do 2 eexists; split; reflexivity.
Qed.

Lemma run_body_spec st :
  run_body env st =
  if docker_ok env then
    match select_services env (probed env st) with
    | (inl e, st1, ts) =>
        (inl e, st1,
         run_intro ++ trace (check_docker env st)
         ++ trace (check_gpu env (with_docker_available true st)) ++ ts)
    | (inr _, st1, ts) =>
        if deploy_ok env (services st1) then
          (inr true, final (show_success_message env st1),
           run_intro ++ trace (check_docker env st)
           ++ trace (check_gpu env (with_docker_available true st)) ++ ts
           ++ trace (deploy_services env st1)
           ++ trace (wait_for_services env st1)
           ++ trace (show_success_message env st1))
        else
          (inr false, st1,
           run_intro ++ trace (check_docker env st)
           ++ trace (check_gpu env (with_docker_available true st)) ++ ts
           ++ trace (deploy_services env st1))
    end
  else
    (inr false, with_docker_available false st,
     run_intro ++ trace (check_docker env st)).
Proof.
  destruct (check_docker_spec env st) as (td & Hd & _ & _).
  pose proof (check_gpu_spec env (with_docker_available true st)) as Hg.
  unfold run_body, clear_screen, print_banner, print_section_header,
    print, sleep.
  rewrite Hd, Hg. unfold run_intro. cbn [trace snd].
  do 3 bind_step.
  erewrite bind_ok by exact Hd. bind_step.
  destruct (docker_ok env); cbn [negb].
  2:{ cbn [ret app]. now rewrite app_nil_r. }
  erewrite bind_ok by exact Hg. bind_step.
  fold (probed env st).
  destruct (select_services env (probed env st)) as [[[e|[]] st1] ts] eqn:Hs.
  - erewrite bind_raise by exact Hs.
    cbn [app]. now rewrite ?app_nil_r, <- ?app_assoc.
  - erewrite bind_ok by exact Hs. cbn [result final trace fst snd].
    destruct (deploy_services_total st1) as (tdep & Hdep).
    destruct (wait_for_services_total env st1) as (tw & Hw).
    destruct (show_success_message_total st1) as (st2 & tsh & Hshow & _).
    rewrite Hdep, Hw, Hshow.
    erewrite bind_ok by exact Hdep. cbn [result final trace fst snd].
    destruct (deploy_ok env (services st1)); cbn [negb].
    + erewrite bind_ok by exact Hw. cbn [result final trace fst snd].
      erewrite bind_ok by exact Hshow. cbn [result final trace fst snd ret app].
      now rewrite ?app_nil_r, <- ?app_assoc.
    + cbn [ret app]. now rewrite ?app_nil_r, <- ?app_assoc.
Qed.

End MainFlow.

Section MainFlowFacts.

Variable env : Env.

Lemma select_loop_reads script d :
  exists r s t, select_loop script d = (r, s, ReadLine :: t).
Proof.
  destruct script as [|[line|] rest]; cbn [select_loop].
  - do 3 eexists; reflexivity.
  - destruct (select_round line d) as [[[| |e] d'] t].
    + do 3 eexists; reflexivity.
    + destruct (select_loop rest d') as [[r s] t']. do 3 eexists; reflexivity.
    + do 3 eexists; reflexivity.
  - do 3 eexists; reflexivity.
Qed.

(** Once the runtime probe has passed, the flow displays the selection
    menu and reads a line, whatever the accelerator probe returned. *)
Lemma run_reaches_prompt st :
  docker_ok env = true ->
  exists rest,
    trace (run env st)
    = run_intro ++ trace (check_docker env st)
      ++ trace (check_gpu env (with_docker_available true st))
      ++ prompt_header (services st) ++ ReadLine :: rest.
Proof.
  intro Hd. unfold run. rewrite run_body_spec, Hd, select_services_unfold.
  change (services (probed env st)) with (services st).
  change (stdin (probed env st)) with (stdin st).
  destruct (select_loop_reads (stdin st) (services st)) as (r & [d rest] & t & ->).
  destruct r as [e|[]].
  - destruct e; eexists; unfold trace; cbn [snd];
      rewrite <- ?app_assoc; cbn [app]; reflexivity.
  - destruct (deploy_ok env _); eexists; unfold trace at 1; cbn [snd];
      rewrite <- ?app_assoc; cbn [app]; reflexivity.
Qed.

(** A failed runtime probe ends the run right after the probe. *)
Lemma run_without_docker st :
  docker_ok env = false ->
  run env st
  = (inr false, with_docker_available false st,
     run_intro ++ trace (check_docker env st)).
Proof. intro Hd. unfold run. now rewrite run_body_spec, Hd. Qed.

(** A run that gets through selection and deployment ends in success,
    whatever the poller saw. *)
Lemma run_after_deployment st st1 ts :
  docker_ok env = true ->
  select_services env (probed env st) = (inr tt, st1, ts) ->
  deploy_ok env (services st1) = true ->
  run env st
  = (inr true, final (show_success_message env st1),
     run_intro ++ trace (check_docker env st)
     ++ trace (check_gpu env (with_docker_available true st)) ++ ts
     ++ trace (deploy_services env st1)
     ++ trace (wait_for_services env st1)
     ++ trace (show_success_message env st1)).
Proof.
  intros Hd Hs Hdep. unfold run. now rewrite run_body_spec, Hd, Hs, Hdep.
Qed.

Lemma commands_app t1 t2 : commands (t1 ++ t2) = commands t1 ++ commands t2.
Proof. unfold commands. apply flat_map_app. Qed.

Lemma headers_app t1 t2 : headers (t1 ++ t2) = headers t1 ++ headers t2.
Proof. unfold headers. apply flat_map_app. Qed.

Lemma docker_ok_succeeds :
  docker_ok env = true <-> succeeds env docker_version /\ succeeds env docker_ps.
Proof.
  unfold docker_ok. now rewrite andb_true_iff, !command_ok_succeeds.
Qed.

Lemma gpu_ok_marker :
  gpu_ok env = true <->
  exists stdout,
    subprocess_run env nvidia_smi = Completed 0 stdout
    /\ Py.contains (Py.chars "NVIDIA") (Py.chars stdout) = true.
Proof.
  unfold gpu_ok, command_ok, command_output.
  destruct (subprocess_run env nvidia_smi) as [rc out| |msg].
  - unfold Py.chars at 2, Py.str.
    rewrite list_ascii_of_string_of_list_ascii.
    rewrite (@contains_strip (Py.chars "NVIDIA") (Py.chars out)
               "N"%char (Py.chars "VIDIA") "A"%char (Py.chars "IDIVN"))
      by reflexivity.
    rewrite andb_true_iff, Z.eqb_eq. split.
    + intros [-> H]. now exists out.
    + intros (o & E & H). inversion E. subst. now split.
  - split; [discriminate | intros (o & E & _); discriminate E].
  - split; [discriminate | intros (o & E & _); discriminate E].
Qed.

End MainFlowFacts.

(** C7: the accelerator probe returns [True] exactly when the diagnostic
    command completes with return code 0 and its captured output contains
    the marker [NVIDIA]; on a non-zero return code, a timeout, a failure to
    run or an output without the marker it returns [False]; it never raises
    and changes nothing.  The result does not stop the run: when the
    runtime probe passes, the flow goes on to display the selection menu
    and to read the operator's line. *)
Theorem gpu_probe_marker_and_nonfatal (env : Env) (st : Installer) :
  (result (check_gpu env st) = inr true <->
   exists stdout,
     subprocess_run env nvidia_smi = Completed 0 stdout
     /\ Py.contains (Py.chars "NVIDIA") (Py.chars stdout) = true)
  /\ (result (check_gpu env st) <> inr true ->
      result (check_gpu env st) = inr false)
  /\ final (check_gpu env st) = st
  /\ commands (trace (check_gpu env st)) = [nvidia_smi]
  /\ (docker_ok env = true ->
      exists rest,
        trace (run env st)
        = run_intro ++ trace (check_docker env st)
          ++ trace (check_gpu env (with_docker_available true st))
          ++ prompt_header (services st) ++ ReadLine :: rest).
Proof.
  split; [|split; [|split; [|split]]].
  5: exact (run_reaches_prompt env st).
  all: rewrite check_gpu_spec; unfold result, final, trace; cbn [fst snd].
  - rewrite <- gpu_ok_marker. split; [now intros [= ->] | now intros ->].
  - destruct (gpu_ok env); [intro H; now destruct H | reflexivity].
  - reflexivity.
  - destruct (gpu_ok env); reflexivity.
Qed.

(** The diagnostic exits with code 1 although its output carries the
    marker: the probe is false and the run reaches the prompt. *)
Lemma gpu_probe_marker_and_nonfatal_witness :
  let env := mkEnv (fun command =>
                      if list_eq_dec String.string_dec command nvidia_smi
                      then Completed 1 "NVIDIA-SMI has failed"
                      else Completed 0 "ok")
                   (fun _ _ _ => Status 200) None true in
  let st := init "linux" [Line "a"] in
  result (check_gpu env st) = inr false
  /\ In ReadLine (trace (run env st)).
Proof.
  intros env st.
  destruct (@gpu_probe_marker_and_nonfatal env st) as (_ & Hfalse & _ & _ & Hrun).
  split.
  - apply Hfalse. discriminate.
  - destruct Hrun as [rest ->]; [reflexivity|].
    apply in_or_app. right. apply in_or_app. right.
    apply in_or_app. right. apply in_or_app. right. now left.
Defined.

(** C8: the runtime probe returns [True] exactly when both the version
    command and the status command complete with return code 0, and it
    never raises.  When it returns [False], [run] returns [False] right
    after the probe: the deployment driver is not entered, and the only
    commands of the whole run are the probe's own, so no pull and no start
    is launched. *)
Theorem docker_probe_gates_deployment (env : Env) (st : Installer) :
  (result (check_docker env st) = inr true <->
   succeeds env docker_version /\ succeeds env docker_ps)
  /\ (result (check_docker env st) <> inr true ->
      result (check_docker env st) = inr false)
  /\ (result (check_docker env st) = inr false ->
      result (run env st) = inr false
      /\ trace (run env st) = run_intro ++ trace (check_docker env st)
      /\ headers (trace (run env st)) = ["SYSTEM VERIFICATION"]
      /\ (forall command,
            In command (commands (trace (run env st))) ->
            command = docker_version \/ command = docker_ps)
      /\ (forall ids,
            ~ In (pull_command ids) (commands (trace (run env st)))
            /\ ~ In (up_command ids) (commands (trace (run env st))))).
Proof.
  destruct (check_docker_spec env st) as (td & Hd & Hc & Hh).
  rewrite Hd. unfold result at 1 2 3 4. cbn [fst].
  split; [|split].
  - rewrite <- docker_ok_succeeds. split; [now intros [= ->] | now intros ->].
  - destruct (docker_ok env); [intro H; now destruct H | reflexivity].
  - intros [= Hok]. rewrite (run_without_docker env st Hok), Hd.
    unfold result, trace. cbn [fst snd].
    assert (Hcmd : forall command,
               In command (commands (run_intro ++ td)) ->
               command = docker_version \/ command = docker_ps).
    { intro command. rewrite commands_app, Hc. cbn [run_intro commands flat_map app].
      destruct (command_ok env docker_version); cbn; intuition auto. }
    repeat split.
    + rewrite headers_app, Hh. reflexivity.
    + exact Hcmd.
    + intro H. apply Hcmd in H. destruct H as [H|H]; discriminate H.
    + intro H. apply Hcmd in H. destruct H as [H|H]; discriminate H.
Qed.

(** The version command is not found: nothing but the probe is run. *)
Lemma docker_probe_gates_deployment_witness :
  let env := mkEnv (fun command =>
                      if list_eq_dec String.string_dec command docker_version
                      then ProcError "[Errno 2] No such file or directory: 'docker'"
                      else Completed 0 EmptyString)
                   (fun _ _ _ => Status 200) None true in
  let st := init "linux" [Line "a"] in
  result (run env st) = inr false
  /\ headers (trace (run env st)) = ["SYSTEM VERIFICATION"].
Proof.
  intros env st.
  destruct (@docker_probe_gates_deployment env st) as (_ & _ & H).
  destruct H as (Hr & _ & Hh & _); [reflexivity|].
  split; [exact Hr | exact Hh].
Defined.

(** ** The poller over a whole wait, and the sets deployed and polled *)

Section WaitFacts.

Variable env : Env.

Lemma progress_lines_app t1 t2 :
  progress_lines (t1 ++ t2) = progress_lines t1 ++ progress_lines t2.
Proof. unfold progress_lines. apply flat_map_app. Qed.

Lemma progress_lines_failed_rounds d attempts :
  progress_lines (flat_map (failed_round env d) attempts)
  = map (fun attempt => (attempt + 1, 24)) attempts.
Proof.
  induction attempts as [|a attempts IH]; [reflexivity|].
  cbn [flat_map map]. unfold failed_round at 1.
  rewrite !progress_lines_app, progress_lines_probes, IH. reflexivity.
Qed.

Lemma requests_app t1 t2 : requests (t1 ++ t2) = requests t1 ++ requests t2.
Proof. unfold requests. apply flat_map_app. Qed.

Lemma upto_first_failure_incl ok l : incl (upto_first_failure ok l) l.
Proof.
  induction l as [|s l IH]; [easy|]. cbn.
  destruct (ok s).
  - intros x [<-|H]; [now left | right; now apply IH].
  - intros x [<-|[]]. now left.
Qed.

Lemma upto_first_failure_prefix ok l :
  exists rest, l = upto_first_failure ok l ++ rest.
Proof.
  induction l as [|s l [rest IH]]; [now exists []|]. cbn.
  destruct (ok s).
  - exists rest. cbn. now rewrite <- IH.
  - now exists l.
Qed.

(** Whatever the answers, every request of the poller goes to a
    descriptor the rounds iterate over. *)
Lemma poll_requests max_attempts attempts st :
  incl (requests (trace (poll max_attempts attempts env st)))
       (map endpoint (poll_targets (services st))).
Proof.
  induction attempts as [|a attempts IH]; [easy|].
  cbn [poll]. bind_step.
  erewrite bind_ok by apply health_round_spec.
  cbn [result final trace fst snd app].
  assert (Hround : incl (requests (map probe (checked env a (services st))))
                        (map endpoint (poll_targets (services st)))).
  { rewrite requests_probes. apply incl_map. apply upto_first_failure_incl. }
  destruct (forallb (healthy env a) (poll_targets (services st))).
  - unfold print. bind_step. cbn [ret]. rewrite requests_app.
    apply incl_app; [exact Hround | easy].
  - unfold print_progress, sleep. do 2 bind_step.
    rewrite requests_app. apply incl_app; [exact Hround | exact IH].
Qed.

Lemma wait_for_services_requests st :
  incl (requests (trace (wait_for_services env st)))
       (map endpoint (poll_targets (services st))).
Proof.
  rewrite wait_for_services_unfold. unfold trace at 1. cbn [snd].
  rewrite requests_app. apply incl_app; [easy | apply poll_requests].
Qed.

Lemma poll_targets_subset d : poll_targets d = values (selected_subset d).
Proof.
  unfold poll_targets, values, selected_subset.
  induction d as [|[k s] d IH]; [reflexivity|]. cbn.
  destruct (selected s); cbn; now rewrite IH.
Qed.

Lemma deploy_services_commands st :
  forall command,
    In command (commands (trace (deploy_services env st))) ->
    command = pull_command (selected_ids (services st))
    \/ command = up_command (selected_ids (services st)).
Proof.
  intro command.
  destruct (selected_ids (services st)) as [|id ids] eqn:H.
  - rewrite (deploy_services_nothing_selected env st H). intros [].
  - rewrite deploy_services_selected by (rewrite H; discriminate).
    rewrite H. unfold trace. cbn [snd].
    destruct (command_ok env (pull_command (id :: ids)));
      [destruct (command_ok env (up_command (id :: ids)))|];
      cbn [app commands flat_map In]; intuition auto.
Qed.

End WaitFacts.

(** C4: when some selected descriptor never answers 200, the poller runs
    all 24 rounds, each followed by its progress line and a pause of 5
    seconds (24 pauses, the last after the final round), then prints the
    timeout report and returns [True] like a healthy wait; it raises
    nothing, and a run that got through selection and deployment with
    this catalog returns [True]. *)
Theorem unhealthy_service_exhausts_attempts
    (env : Env) (st : Installer) (key : string) (service : Service) :
  In (key, service) (services st) ->
  selected service = true ->
  (forall attempt,
     urlopen env attempt (port service) (health_path service) <> Status 200) ->
  wait_for_services env st
  = (inr true, st,
     wait_header
     ++ flat_map (failed_round env (services st)) (seq 0 24)
     ++ timeout_report)
  /\ progress_lines (trace (wait_for_services env st))
     = map (fun attempt => (attempt + 1, 24)) (seq 0 24)
  /\ sleeps (trace (wait_for_services env st)) = repeat 5%Z 24
  /\ (forall st0 ts,
        docker_ok env = true ->
        select_services env (probed env st0) = (inr tt, st, ts) ->
        deploy_ok env (services st) = true ->
        result (run env st0) = inr true
        /\ exists before after,
             trace (run env st0)
             = before ++ trace (wait_for_services env st) ++ after).
Proof.
  intros Hin Hsel Hbad.
  assert (E : wait_for_services env st
              = (inr true, st,
                 wait_header
                 ++ flat_map (failed_round env (services st)) (seq 0 24)
                 ++ timeout_report)).
  { rewrite wait_for_services_unfold.
    rewrite (poll_never_healthy env 24 (seq 0 24) st); [reflexivity|].
    intros attempt _.
    apply (forallb_healthy_false env attempt (services st) key service Hin Hsel).
    apply not_200_unhealthy. apply Hbad. }
  split; [exact E|]. rewrite E. unfold trace at 1 2. cbn [snd].
  split; [|split].
  - rewrite !progress_lines_app, progress_lines_failed_rounds. reflexivity.
  - rewrite !sleeps_app, sleeps_failed_rounds. reflexivity.
  - intros st0 ts Hd Hs Hdep.
    rewrite (run_after_deployment env st0 Hd Hs Hdep).
    split; [reflexivity|]. unfold trace at 1. cbn [snd].
    exists (run_intro ++ trace (check_docker env st0)
            ++ trace (check_gpu env (with_docker_available true st0)) ++ ts
            ++ trace (deploy_services env st)),
           (trace (show_success_message env st)).
    rewrite E. unfold trace at 5. cbn [snd].
    now rewrite <- !app_assoc.
Qed.

(** Every command succeeds, the operator selects everything, and the
    processing API answers 500 for ever. *)
Lemma unhealthy_service_exhausts_attempts_witness :
  let env := mkEnv (fun _ => Completed 0 EmptyString)
                   (fun _ p _ => if Z.eqb p 5001 then Status 500 else Status 200)
                   None true in
  let st0 := init "linux" [Line "A"] in
  let st := final (select_services env (probed env st0)) in
  sleeps (trace (wait_for_services env st)) = repeat 5%Z 24
  /\ result (run env st0) = inr true.
Proof.
  intros env st0 st.
  destruct (@unhealthy_service_exhausts_attempts env st "clara_python"
              (mkService "Python Backend" "Advanced AI Processing APIs" 5001
                         "/health" true))
    as (_ & _ & Hsleeps & Hrun).
  - right. left. reflexivity.
  - reflexivity.
  - intros attempt. discriminate.
  - split; [exact Hsleeps|].
    destruct (Hrun st0 (trace (select_services env (probed env st0))))
      as [Hr _]; [reflexivity | reflexivity | reflexivity | exact Hr].
Defined.

(** * Further properties of the installer *)

(** ** The progress bar *)

(** X1: for a step between 0 and a positive total, the bar is exactly 50
    characters wide, its blocks come first and number [50 * step / total]
    rounded down; it is all dashes at step 0 and all blocks at the last
    step.  A total of 0 raises. *)
Theorem progress_bar_width (step total : Z) :
  (0 < total)%Z -> (0 <= step <= total)%Z ->
  exists filled,
    (0 <= filled <= 50)%Z
    /\ filled = (50 * step / total)%Z
    /\ progress_bar step total
       = Some (repeat Block (Z.to_nat filled)
               ++ repeat Dash (Z.to_nat (50 - filled)))
    /\ (forall bar, progress_bar step total = Some bar -> List.length bar = 50)
    /\ (step = 0%Z -> progress_bar step total = Some (repeat Dash 50))
    /\ (step = total -> progress_bar step total = Some (repeat Block 50))
    /\ progress_bar step 0 = None.
Proof.
  intros Ht Hs.
  assert (Hlo : (0 <= 50 * step / total)%Z) by (apply Z.div_pos; lia).
  assert (Hhi : (50 * step / total <= 50)%Z).
  { apply Z.div_le_upper_bound; lia. }
  exists (50 * step / total)%Z.
  assert (E : progress_bar step total
              = Some (repeat Block (Z.to_nat (50 * step / total))
                      ++ repeat Dash (Z.to_nat (50 - 50 * step / total)))).
  { unfold progress_bar, progress_filled.
    destruct (Z.eqb_spec total 0); [lia | reflexivity]. }
  repeat split; try lia; try exact E.
  - intros bar Hbar. rewrite E in Hbar. inversion Hbar.
    rewrite length_app, !repeat_length.
    assert (G : forall q, (0 <= q <= 50)%Z ->
                          (Z.to_nat q + Z.to_nat (50 - q) = 50)%nat)
      by (intros; lia).
    apply G. split; assumption.
  - intros ->. rewrite E. rewrite Z.mul_0_r, Z.div_0_l by lia. reflexivity.
  - intros ->. rewrite E.
    replace (50 * total / total)%Z with 50%Z
      by (symmetry; apply Z.div_mul; lia).
    reflexivity.
Qed.

(** The thirteenth of the poller's twenty-four progress lines. *)
Lemma progress_bar_width_witness :
  progress_bar 13 24
  = Some (repeat Block 27 ++ repeat Dash 23).
Proof.
  destruct (@progress_bar_width 13 24) as (filled & _ & -> & E & _);
    [lia | lia | exact E].
Defined.

(** ** The prompt: what it keeps and what it guarantees *)

Section PromptFacts.

Lemma set_all_set_all b c d : set_all b (set_all c d) = set_all b d.
Proof. unfold set_all. rewrite map_map. reflexivity. Qed.

Lemma set_all_select_key b key d : set_all b (select_key key d) = set_all b d.
Proof.
  unfold set_all, select_key. rewrite map_map. apply map_ext.
  intros [k s]. cbn. now destruct (String.eqb k key).
Qed.

Lemma parse_selections_keeps ks cs d :
  set_all false (snd (parse_selections ks cs d)) = set_all false d.
Proof.
  revert d. induction cs as [|c cs IH]; intro d; [reflexivity|].
  cbn [parse_selections]. destruct (Py.isdigit c); [|apply IH].
  destruct (Py.int c) as [n|]; [|reflexivity].
  destruct (_ && _)%bool; [|apply IH].
  now rewrite IH, set_all_select_key.
Qed.

(** A round changes nothing of the catalog but selection flags. *)
Lemma select_round_keeps line d :
  set_all false (snd (fst (select_round line d))) = set_all false d.
Proof.
  unfold select_round.
  destruct (list_eq_dec N.eq_dec _ _); [apply set_all_set_all|].
  destruct (Py.strip (Py.chars line)) as [|c0 choice]; [reflexivity|].
  pose proof (parse_selections_keeps (keys (set_all false d))
                (Py.remove_char " " (Py.remove_char "," (c0 :: choice)))
                (set_all false d)) as H.
  destruct (parse_selections _ _ _) as [[e|u] d2]; cbn [snd] in H.
  - cbn [fst snd]. now rewrite H, set_all_set_all.
  - destruct (any_selected d2); cbn [fst snd]; now rewrite H, set_all_set_all.
Qed.

Lemma any_selected_set_all_true d : d <> [] -> any_selected (set_all true d) = true.
Proof. destruct d as [|[k s] d]; [congruence | reflexivity]. Qed.

(** A round ends the loop only with something selected. *)
Lemma select_round_break line d :
  d <> [] ->
  fst (fst (select_round line d)) = Break ->
  any_selected (snd (fst (select_round line d))) = true.
Proof.
  intro Hd. unfold select_round.
  destruct (list_eq_dec N.eq_dec _ _);
    [intros _; now apply any_selected_set_all_true|].
  destruct (Py.strip (Py.chars line)) as [|c0 choice]; [discriminate|].
  destruct (parse_selections _ _ _) as [[e|u] d2]; [discriminate|].
  destruct (any_selected d2) eqn:E; [intros _; exact E | discriminate].
Qed.

Lemma any_selected_ids d : any_selected d = true <-> selected_ids d <> [].
Proof.
  unfold any_selected, selected_ids, keys, values.
  induction d as [|[k s] d IH]; cbn.
  - split; [discriminate | congruence].
  - destruct (selected s); cbn; [split; [discriminate | reflexivity] | exact IH].
Qed.

Lemma select_loop_keeps script d :
  set_all false (fst (snd (fst (select_loop script d)))) = set_all false d.
Proof.
  revert d. induction script as [|[line|] rest IH]; intro d; try reflexivity.
  cbn [select_loop].
  pose proof (select_round_keeps line d) as H.
  destruct (select_round line d) as [[[| |e] d'] t]; cbn [fst snd] in *;
    try exact H.
  specialize (IH d'). destruct (select_loop rest d') as [[r [d'' rest']] t'].
  cbn [fst snd] in *. congruence.
Qed.

Lemma select_loop_selects script d :
  d <> [] ->
  fst (fst (select_loop script d)) = inr tt ->
  any_selected (fst (snd (fst (select_loop script d)))) = true.
Proof.
  revert d. induction script as [|[line|] rest IH]; intros d Hd;
    try discriminate.
  cbn [select_loop].
  pose proof (select_round_break line Hd) as Hb.
  pose proof (select_round_keeps line d) as Hk.
  destruct (select_round line d) as [[[| |e] d'] t]; cbn [fst snd] in *.
  - intros _. now apply Hb.
  - assert (Hd' : d' <> []).
    { intros ->. destruct d; [congruence | discriminate Hk]. }
    specialize (IH d' Hd').
    destruct (select_loop rest d') as [[r [d'' rest']] t'].
    cbn [fst snd] in *. exact IH.
  - discriminate.
Qed.

End PromptFacts.

(** X2: however [select_services] ends, normally or by an exception, it
    has changed nothing of the installer but selection flags and the
    position in the console script: identifiers, names, ports, health
    paths and their order are as before, and so are the probe results.
    When it returns normally on a non-empty catalog, at least one service
    is selected. *)
Theorem select_services_only_sets_flags (env : Env) (st : Installer) :
  let st' := final (select_services env st) in
  set_all false (services st') = set_all false (services st)
  /\ keys (services st') = keys (services st)
  /\ docker_available st' = docker_available st
  /\ gpu_available st' = gpu_available st
  /\ os_type st' = os_type st
  /\ (services st <> [] ->
      result (select_services env st) = inr tt ->
      selected_ids (services st') <> []).
Proof.
  cbv zeta. rewrite select_services_unfold.
  pose proof (select_loop_keeps (stdin st) (services st)) as Hk.
  pose proof (@select_loop_selects (stdin st) (services st)) as Hs.
  destruct (select_loop (stdin st) (services st)) as [[r [d rest]] t].
  cbn [fst snd] in *.
  assert (Hkeys : keys d = keys (services st)).
  { rewrite <- (keys_set_all false d), Hk. apply keys_set_all. }
  destruct r as [e|[]]; unfold final, result; cbn [fst snd];
    repeat split; try assumption.
  - discriminate.
  - intros Hne _. apply any_selected_ids. now apply Hs.
Qed.

(** Two rejected lines, then [2]: only the second service is selected. *)
Lemma select_services_only_sets_flags_witness :
  let env := mkEnv (fun _ => TimeoutExpired) (fun _ _ _ => NetworkError) None false in
  let st := init "linux" [Line "x"; Line EmptyString; Line "2"] in
  selected_ids (services (final (select_services env st))) <> [].
Proof.
  intros env st.
  destruct (@select_services_only_sets_flags env st) as (_ & _ & _ & _ & _ & H).
  apply H; [discriminate | reflexivity].
Defined.

(** ** The prompt: which submissions do what *)

Section SubmissionFacts.

Import Py.

Lemma isdigit_not_blank c :
  isdigit c = true ->
  isspace c = false
  /\ negb (Ascii.eqb c ",") = true /\ negb (Ascii.eqb c " ") = true.
Proof.
  destruct c as [[] [] [] [] [] [] [] []]; vm_compute; intro H;
    solve [discriminate H | repeat split; reflexivity].
Qed.

Lemma In_existsb (c : ascii) l : In c l <-> existsb (Ascii.eqb c) l = true.
Proof.
  rewrite existsb_exists. split.
  - intro H. exists c. split; [exact H | apply Ascii.eqb_refl].
  - intros (x & Hx & E). apply Ascii.eqb_eq in E. now subst x.
Qed.

(** A character [isdigit] accepts survives the trimming and the removal
    of separators. *)
Lemma In_digits_of_digit c line :
  isdigit c = true ->
  In c (chars line) -> In c (digits_of (strip (chars line))).
Proof.
  intros Hd Hin. destruct (isdigit_not_blank _ Hd) as (Hs & Hc & Hb).
  apply In_existsb. apply In_existsb in Hin.
  unfold digits_of, remove_char.
  rewrite !existsb_filter_keep.
  - rewrite existsb_strip; [exact Hin|].
    intros x E. apply Ascii.eqb_eq in E. now subst x.
  - intros x E. apply Ascii.eqb_eq in E. now subst x.
  - intros x E. apply Ascii.eqb_eq in E. now subst x.
Qed.

Lemma parse_selections_raises ks cs d :
  (exists c, In c cs /\ isdigit c = true /\ isdecimal c = false) ->
  exists c, fst (parse_selections ks cs d) = inl (ValueError c)
            /\ In c cs /\ isdigit c = true /\ isdecimal c = false.
Proof.
  revert d. induction cs as [|x cs IH]; intros d (c & Hin & Hd & Hn);
    [destruct Hin|].
  cbn [parse_selections].
  assert (Hrec : forall d', (exists c, In c cs /\ isdigit c = true
                                       /\ isdecimal c = false) ->
                 exists c0, fst (parse_selections ks cs d') = inl (ValueError c0)
                            /\ In c0 (x :: cs) /\ isdigit c0 = true
                            /\ isdecimal c0 = false).
  { intros d' H. destruct (IH d' H) as (c0 & E & Hi & H1 & H2).
    exists c0. repeat split; try assumption. now right. }
  destruct (isdigit x) eqn:Hx.
  - unfold int. destruct (isdecimal x) eqn:Hdec.
    + assert (Hcs : exists c, In c cs /\ isdigit c = true /\ isdecimal c = false).
      { destruct Hin as [->|Hin]; [congruence|]. now exists c. }
      destruct (_ && _)%bool; now apply Hrec.
    + exists x. repeat split; try assumption. now left.
  - apply Hrec. destruct Hin as [->|Hin]; [congruence|]. now exists c.
Qed.

Lemma parse_selections_returns ks cs d :
  (forall c, In c cs -> isdigit c = true -> isdecimal c = true) ->
  fst (parse_selections ks cs d) = inr tt.
Proof.
  revert d. induction cs as [|x cs IH]; intros d H; [reflexivity|].
  cbn [parse_selections].
  assert (H' : forall c, In c cs -> isdigit c = true -> isdecimal c = true)
    by (intros c Hc; apply H; now right).
  destruct (isdigit x) eqn:Hx; [|now apply IH].
  unfold int. rewrite (H x) by (now left || assumption).
  destruct (_ && _)%bool; now apply IH.
Qed.

Lemma mentions_high line i : 10 <= i -> mentions line i = false.
Proof.
  intro Hi. unfold mentions. apply not_true_is_false. intro H.
  apply existsb_exists in H. destruct H as (c & _ & Hc).
  unfold names, isdecimal in Hc. cbv zeta in Hc.
  apply andb_prop in Hc. destruct Hc as [Hd He].
  apply andb_prop in Hd. destruct Hd as [_ Hd].
  apply N.leb_le in Hd. apply Nat.eqb_eq in He. lia.
Qed.

Lemma nth_error_mark_flag f i d n key service :
  nth_error (mark f i d) n = Some (key, service) ->
  selected service = f (i + n).
Proof.
  revert i n. induction d as [|[k s] d IH]; intros i n H.
  - destruct n; discriminate.
  - destruct n as [|n]; cbn in H.
    + inversion H. cbn. now rewrite Nat.add_0_r.
    + apply IH in H. now replace (i + S n) with (S i + n) by lia.
Qed.

Lemma mark_ext_from f g i d :
  (forall j, i <= j -> f j = g j) -> mark f i d = mark g i d.
Proof.
  revert i. induction d as [|[k s] d IH]; intros i H; [reflexivity|].
  cbn [mark]. rewrite (H i) by lia. f_equal. apply IH.
  intros j Hj. apply H. lia.
Qed.

Lemma mark_cleared f i d : mark f i (set_all false d) = mark f i d.
Proof.
  revert i. induction d as [|[k s] d IH]; intro i; [reflexivity|].
  cbn. f_equal. apply IH.
Qed.

End SubmissionFacts.

(** X3: the all-services branch is taken exactly by the submissions that
    are, once trimmed, the single letter [a] or [A]; longer words that
    begin with it ([all], [A1], [aa]) are treated as digit text. *)
Theorem all_services_branch_iff (line : string) (d : catalog) :
  select_round line d
  = (Break, set_all true d, [LogInfo "All services selected for deployment"])
  <-> Py.strip (Py.chars line) = ["a"%char]
      \/ Py.strip (Py.chars line) = ["A"%char].
Proof.
  rewrite <- upper_is_A. split.
  - unfold select_round.
    destruct (list_eq_dec N.eq_dec _ _) as [E|_]; [intros _; exact E|].
    destruct (Py.strip (Py.chars line)) as [|c0 choice]; [discriminate|].
    destruct (parse_selections _ _ _) as [[e|u] d2]; [discriminate|].
    destruct (any_selected d2); discriminate.
  - apply select_round_all_key.
Qed.

(** The digit loop raises only at a character [isdigit] accepts and
    [int] rejects. *)
Lemma parse_selections_raise_inv ks cs d e :
  fst (parse_selections ks cs d) = inl e ->
  exists c, e = ValueError c /\ In c cs
            /\ Py.isdigit c = true /\ Py.isdecimal c = false.
Proof.
  revert d. induction cs as [|x cs IH]; intros d H; [discriminate H|].
  cbn [parse_selections] in H.
  assert (Hrec : forall d', fst (parse_selections ks cs d') = inl e ->
                 exists c, e = ValueError c /\ In c (x :: cs)
                           /\ Py.isdigit c = true /\ Py.isdecimal c = false).
  { intros d' H'. destruct (IH d' H') as (c & E & Hin & H1 & H2).
    exists c. repeat split; try assumption. now right. }
  destruct (Py.isdigit x) eqn:Hx; [|now apply (Hrec d)].
  unfold Py.int in H. destruct (Py.isdecimal x) eqn:Hdec.
  - destruct (_ && _)%bool; eapply Hrec; exact H.
  - cbn [fst] in H. inversion H. exists x. repeat split; try assumption.
    now left.
Qed.

(** A round raises only from its digit loop. *)
Lemma select_round_raise_inv line d e :
  fst (fst (select_round line d)) = Raise e ->
  exists c, e = ValueError c /\ In c (Py.chars line)
            /\ Py.isdigit c = true /\ Py.isdecimal c = false.
Proof.
  unfold select_round.
  destruct (list_eq_dec N.eq_dec _ _); [discriminate|].
  destruct (Py.strip (Py.chars line)) as [|c0 choice] eqn:Hs; [discriminate|].
  rewrite <- Hs. fold (digits_of (Py.strip (Py.chars line))).
  pose proof (@parse_selections_raise_inv (keys (set_all false d))
                (digits_of (Py.strip (Py.chars line))) (set_all false d)) as H.
  destruct (parse_selections _ _ _) as [[e'|u] d2]; cbn [fst] in *.
  - intros [= ->]. destruct (H e eq_refl) as (c & E & Hin & H1 & H2).
    exists c. repeat split; try assumption. now apply In_digits_of.
  - destruct (any_selected d2); discriminate.
Qed.

(** X4: a submission that is neither blank nor the [A] key makes the round
    raise exactly when it contains a character that [str.isdigit] accepts
    and [int] rejects (a superscript digit).  Whatever the submission, a
    round raises nothing but the [ValueError] of such a character of the
    submission; in particular a blank submission and the [A] key never
    raise. *)
Theorem select_round_raises_iff (line : string) (d : catalog) :
  ~ blank line -> ~ all_key line ->
  ((exists c, In c (Py.chars line)
              /\ Py.isdigit c = true /\ Py.isdecimal c = false)
   <-> exists e, fst (fst (select_round line d)) = Raise e)
  /\ (forall line' d' e,
        fst (fst (select_round line' d')) = Raise e ->
        exists c, e = ValueError c /\ In c (Py.chars line')
                  /\ Py.isdigit c = true /\ Py.isdecimal c = false)
  /\ (forall line' d' e,
        blank line' \/ all_key line' ->
        fst (fst (select_round line' d')) <> Raise e).
Proof.
  unfold blank, all_key. intros Hb Ha. split; [split|split].
  - intros (c & Hin & Hd & Hn). unfold select_round.
    destruct (list_eq_dec N.eq_dec _ _) as [E|_]; [contradiction|].
    destruct (Py.strip (Py.chars line)) as [|c0 choice] eqn:Hs; [contradiction|].
    rewrite <- Hs. fold (digits_of (Py.strip (Py.chars line))).
    destruct (@parse_selections_raises (keys (set_all false d))
                (digits_of (Py.strip (Py.chars line))) (set_all false d))
      as (c' & E & _).
    { exists c. repeat split; try assumption. now apply In_digits_of_digit. }
    destruct (parse_selections _ _ _) as [[e|u] d2];
      cbn [fst] in *; [|discriminate].
    now exists e.
  - intros (e & He). destruct (select_round_raise_inv _ _ He)
      as (c & _ & Hin & Hd & Hn).
    now exists c.
  - intros line' d' e. apply select_round_raise_inv.
  - intros line' d' e [Hbl|Hal].
    + unfold select_round. rewrite Hbl.
      destruct (list_eq_dec N.eq_dec _ _); discriminate.
    + fold (all_key line') in Hal. rewrite (select_round_all_key d' Hal).
      discriminate.
Qed.

(** The superscript two after a valid digit. *)
Lemma select_round_raises_iff_witness :
  exists e,
    fst (fst (select_round (String "1" (String (ascii_of_nat 178) EmptyString))
                           initial_services))
    = Raise e.
Proof.
  destruct (@select_round_raises_iff
              (String "1" (String (ascii_of_nat 178) EmptyString))
              initial_services) as [[H _] _].
  - intro E. vm_compute in E. discriminate E.
  - intro E. vm_compute in E. discriminate E.
  - apply H. exists (ascii_of_nat 178). repeat split. right. now left.
Defined.

(** X5: digits are read one character at a time, so a digit submission
    reaches the first nine catalog positions only: whatever the
    submission, every entry from the tenth on ends up cleared. *)
Theorem digits_reach_first_nine (line : string) (d : catalog) :
  wf_catalog d -> ~ blank line -> ~ all_key line -> int_safe line ->
  forall n key service,
    nth_error (snd (fst (select_round line d))) n = Some (key, service) ->
    9 <= n -> selected service = false.
Proof.
  intros Hwf Hb Ha Hs n key service Hn Hhigh.
  rewrite (select_round_explicit Hwf Hb Ha Hs) in Hn. cbn [fst snd] in Hn.
  apply nth_error_mark_flag in Hn. rewrite Hn.
  apply mentions_high. lia.
Qed.

(** X6: the outcome of a digit submission depends on the set of digits 1
    to 9 it contains and on nothing else: neither on their order or
    repetition, nor on separators and other characters around them, nor
    on the flags set beforehand. *)
Theorem digit_set_decides_selection (line1 line2 : string) (d1 d2 : catalog) :
  wf_catalog d1 ->
  set_all false d1 = set_all false d2 ->
  ~ blank line1 -> ~ all_key line1 -> int_safe line1 ->
  ~ blank line2 -> ~ all_key line2 -> int_safe line2 ->
  (forall i, 1 <= i <= 9 -> mentions line1 i = mentions line2 i) ->
  select_round line1 d1 = select_round line2 d2.
Proof.
  intros Hwf Hd Hb1 Ha1 Hs1 Hb2 Ha2 Hs2 Hm.
  assert (Hwf2 : wf_catalog d2).
  { unfold wf_catalog in *.
    now rewrite <- (keys_set_all false d2), <- Hd, keys_set_all. }
  rewrite (select_round_explicit Hwf Hb1 Ha1 Hs1).
  rewrite (select_round_explicit Hwf2 Hb2 Ha2 Hs2).
  assert (E : mark (mentions line1) 1 d1 = mark (mentions line2) 1 d2).
  { rewrite <- (mark_cleared _ 1 d1), Hd, mark_cleared.
    apply mark_ext_from. intros j Hj.
    destruct (Nat.le_gt_cases j 9) as [H9|H9].
    - apply Hm. lia.
    - now rewrite !mentions_high by lia. }
  now rewrite E.
Qed.

(** Closes [wf_catalog], [~ blank], [~ all_key] and [int_safe] goals on
    concrete catalogs and submissions. *)
Ltac concrete_submission :=
  match goal with
  | |- wf_catalog _ =>
      let H := fresh "H" in
      repeat constructor; cbn; intro H;
      repeat (destruct H as [H|H]; [discriminate H|]); exact H
  | |- ~ _ =>
      let H := fresh "H" in intro H; vm_compute in H; discriminate H
  | |- int_safe _ =>
      let c := fresh "c" in
      let Hc := fresh "Hc" in
      intros c Hc; vm_compute in Hc;
      repeat (destruct Hc as [<-|Hc];
              [vm_compute;
               let Hd := fresh "Hd" in
               intro Hd; solve [reflexivity | discriminate Hd]|]);
      destruct Hc
  end.

(** Ten services, all selected beforehand, and the submission [9,10]: the
    tenth is cleared. *)
Lemma digits_reach_first_nine_witness :
  let d := map (fun k => (k, mkService k k 8000 "/" true))
               ["a"; "b"; "c"; "d"; "e"; "f"; "g"; "h"; "i"; "j"] in
  match nth_error (snd (fst (select_round "9,10" d))) 9 with
  | Some (_, service) => selected service = false
  | None => False
  end.
Proof.
  intro d.
  destruct (nth_error (snd (fst (select_round "9,10" d))) 9)
    as [[key service]|] eqn:H.
  - apply (@digits_reach_first_nine "9,10" d) with (n := 9) (key := key);
      [concrete_submission | concrete_submission | concrete_submission
      | concrete_submission | exact H | lia].
  - vm_compute in H. discriminate H.
Defined.

(** [1,3] on the fresh catalog and [3 1 1x] on a fully selected one. *)
Lemma digit_set_decides_selection_witness :
  select_round "1,3" initial_services
  = select_round "3 1 1x" (set_all true initial_services).
Proof.
  apply digit_set_decides_selection; try concrete_submission.
  - reflexivity.
  - intros i Hi.
    assert (E : i = 1 \/ i = 2 \/ i = 3 \/ i = 4 \/ i = 5 \/ i = 6 \/ i = 7
                \/ i = 8 \/ i = 9) by lia.
    repeat (destruct E as [->|E]; [reflexivity|]). subst i. reflexivity.
Defined.

(** ** The deployment driver: every outcome *)

(** X7: the driver returns [True] exactly when something is selected and
    both the pull and the start complete with return code 0.  After a
    successful pull it launches the start, once, with the same
    identifiers; when the start fails it reports the failure and returns
    [False] without launching anything further. *)
Theorem deploy_services_outcome (env : Env) (st : Installer) :
  let ids := selected_ids (services st) in
  (result (deploy_services env st) = inr true <->
   ids <> [] /\ succeeds env (pull_command ids) /\ succeeds env (up_command ids))
  /\ (ids <> [] -> succeeds env (pull_command ids) ->
      commands (trace (deploy_services env st))
      = [pull_command ids; up_command ids])
  /\ (ids <> [] -> succeeds env (pull_command ids) ->
      ~ succeeds env (up_command ids) ->
      result (deploy_services env st) = inr false
      /\ In (LogError "Failed to start services")
            (trace (deploy_services env st))).
Proof.
  cbv zeta.
  destruct (selected_ids (services st)) as [|id ids] eqn:Hids.
  - rewrite (deploy_services_nothing_selected env st Hids).
    repeat split; try congruence; try discriminate.
    intros (H & _). congruence.
  - assert (Hne : selected_ids (services st) <> [])
      by (rewrite Hids; discriminate).
    rewrite (deploy_services_selected env st Hne), Hids.
    unfold result, trace. cbn [fst snd].
    split; [|split].
    + rewrite <- !command_ok_succeeds. split.
      * intros [= H]. apply andb_prop in H. destruct H. repeat split; auto.
        discriminate.
      * intros (_ & -> & ->). reflexivity.
    + intros _ Hp. apply command_ok_succeeds in Hp. rewrite Hp.
      destruct (command_ok env (up_command (id :: ids))); reflexivity.
    + intros _ Hp Hu. apply command_ok_succeeds in Hp. rewrite Hp.
      destruct (command_ok env (up_command (id :: ids))) eqn:E.
      * apply command_ok_succeeds in E. contradiction.
      * split; [reflexivity|]. cbn. auto 10.
Qed.

(** Everything selected, the pull succeeds and the start exits with 1. *)
Lemma deploy_services_outcome_witness :
  let env := mkEnv (fun command =>
                      if list_eq_dec String.string_dec command
                           (up_command ["clara_comfyui"; "clara_python"; "clara_n8n"])
                      then Completed 1 EmptyString
                      else Completed 0 EmptyString)
                   (fun _ _ _ => Status 200) None true in
  let st := with_services (set_all true initial_services) (init "linux" []) in
  result (deploy_services env st) = inr false
  /\ commands (trace (deploy_services env st))
     = [pull_command ["clara_comfyui"; "clara_python"; "clara_n8n"];
        up_command ["clara_comfyui"; "clara_python"; "clara_n8n"]].
Proof.
  intros env st.
  destruct (@deploy_services_outcome env st) as (_ & Hc & Hf).
  split.
  - apply Hf.
    + discriminate.
    + now exists EmptyString.
    + intros [out H]. discriminate H.
  - apply Hc; [discriminate | now exists EmptyString].
Defined.

(** ** The poller: every outcome *)

Section PollerShape.

Variable env : Env.

Lemma seq_split start len l1 l2 :
  seq start len = l1 ++ l2 ->
  l1 = seq start (List.length l1)
  /\ l2 = seq (start + List.length l1) (len - List.length l1)
  /\ List.length l1 <= len.
Proof.
  revert start len. induction l1 as [|x l1 IH]; intros start len H.
  - cbn in *. rewrite Nat.add_0_r, Nat.sub_0_r. repeat split; auto. lia.
  - destruct len as [|len]; [discriminate H|].
    cbn in H. inversion H as [[Hx Hrest]].
    destruct (IH _ _ Hrest) as (E1 & E2 & Hle).
    cbn [List.length seq]. repeat split.
    + now rewrite <- E1.
    + replace (x + S (List.length l1)) with (S x + List.length l1) by lia.
      exact E2.
    + lia.
Qed.

(** The loop runs failed rounds until the first fully healthy attempt or
    the end of the attempts. *)
Lemma poll_shape max_attempts attempts st :
  exists failed rest,
    attempts = failed ++ rest
    /\ (forall a, In a failed ->
          forallb (healthy env a) (poll_targets (services st)) = false)
    /\ match rest with
       | [] => True
       | a :: _ => forallb (healthy env a) (poll_targets (services st)) = true
       end
    /\ poll max_attempts attempts env st
       = (inr true, st,
          flat_map (fun a => map probe (checked env a (services st))
                             ++ [ProgressBar (a + 1) max_attempts; Sleep 5])
                   failed
          ++ match rest with
             | [] => timeout_report
             | _ :: _ =>
                 map probe (poll_targets (services st))
                 ++ [Print "[OK] All selected services are healthy and ready!"]
             end).
Proof.
  induction attempts as [|a attempts IH].
  - exists [], []. repeat split. intros a [].
  - destruct (forallb (healthy env a) (poll_targets (services st))) eqn:Ha.
    + exists [], (a :: attempts). repeat split.
      * intros b [].
      * exact Ha.
      * now rewrite (poll_first_round_healthy env max_attempts a attempts st Ha).
    + destruct IH as (failed & rest & -> & Hf & Hr & E).
      exists (a :: failed), rest. repeat split.
      * intros b [<-|Hb]; [exact Ha | now apply Hf].
      * exact Hr.
      * cbn [poll]. bind_step.
        erewrite bind_ok by apply health_round_spec.
        cbn [result final trace fst snd app]. rewrite Ha.
        unfold print_progress, sleep. do 2 bind_step. rewrite E.
        cbn [fst snd flat_map app]. now rewrite <- !app_assoc.
Qed.

End PollerShape.

(** X8: the poller stops at the first attempt [n] in which every selected
    descriptor answers 200, or after 24 attempts: it performs exactly [n]
    failed rounds, each with its progress line and 5-second pause, then
    either one full round and the healthy message ([n < 24]) or the
    timeout report ([n = 24]).  So it pauses [n <= 24] times, at most 120
    seconds in all, and returns [True] either way. *)
Theorem wait_for_services_shape (env : Env) (st : Installer) :
  let targets := poll_targets (services st) in
  exists n,
    n <= 24
    /\ (forall a, a < n -> forallb (healthy env a) targets = false)
    /\ (n < 24 -> forallb (healthy env n) targets = true)
    /\ wait_for_services env st
       = (inr true, st,
          wait_header
          ++ flat_map (failed_round env (services st)) (seq 0 n)
          ++ (if (n <? 24)%nat
              then map probe targets
                   ++ [Print "[OK] All selected services are healthy and ready!"]
              else timeout_report))
    /\ sleeps (trace (wait_for_services env st)) = repeat 5%Z n
    /\ (fold_right Z.add 0 (sleeps (trace (wait_for_services env st))) <= 120)%Z.
Proof.
  cbv zeta.
  destruct (poll_shape env 24 (seq 0 24) st) as (failed & rest & Hs & Hf & Hr & E).
  destruct (seq_split _ _ _ _ Hs) as (E1 & E2 & Hle).
  set (n := List.length failed) in *.
  assert (Hshape : wait_for_services env st
    = (inr true, st,
       wait_header
       ++ flat_map (failed_round env (services st)) (seq 0 n)
       ++ (if (n <? 24)%nat
           then map probe (poll_targets (services st))
                ++ [Print "[OK] All selected services are healthy and ready!"]
           else timeout_report))).
  { rewrite wait_for_services_unfold, E. unfold result, final, trace.
    cbn [fst snd]. rewrite <- E1.
    destruct (Nat.ltb_spec n 24) as [Hlt|Hge].
    - destruct rest as [|a rest]; [|reflexivity].
      exfalso. apply (f_equal (@List.length nat)) in E2.
      rewrite length_seq in E2. cbn [List.length] in E2. lia.
    - destruct rest as [|a rest]; [reflexivity|].
      exfalso. apply (f_equal (@List.length nat)) in E2.
      rewrite length_seq in E2. cbn [List.length] in E2. lia. }
  assert (Hsleeps : sleeps (trace (wait_for_services env st)) = repeat 5%Z n).
  { rewrite Hshape. unfold trace. cbn [snd].
    rewrite !sleeps_app, sleeps_failed_rounds, length_seq.
    destruct (n <? 24)%nat; rewrite ?sleeps_app, ?sleeps_probes; cbn;
      now rewrite app_nil_r. }
  exists n. repeat split; try assumption.
  - intros a Ha. apply Hf. rewrite E1. apply in_seq. lia.
  - intro Hlt. destruct rest as [|a rest].
    + apply (f_equal (@List.length nat)) in E2.
      rewrite length_seq in E2. cbn [List.length] in E2. lia.
    + assert (a = n); [|now subst a].
      destruct (24 - n) as [|m] eqn:Hm; [lia|]. cbn [seq] in E2.
      inversion E2. lia.
  - rewrite Hsleeps.
    assert (G : forall k, fold_right Z.add 0%Z (repeat 5%Z k) = (5 * Z.of_nat k)%Z).
    { induction k as [|k IH]; [reflexivity|].
      cbn [repeat fold_right]. rewrite IH. lia. }
    rewrite G. lia.
Qed.

(** ** Which commands a run launches *)

Section CommandFacts.

Variable env : Env.

Lemma commands_flat_map_quiet {A} (g : A -> list event) (l : list A) :
  (forall x, commands (g x) = []) -> commands (flat_map g l) = [].
Proof.
  intro H. induction l as [|x l IH]; [reflexivity|].
  cbn [flat_map]. now rewrite commands_app, H, IH.
Qed.

Lemma browsers_app t1 t2 : browsers (t1 ++ t2) = browsers t1 ++ browsers t2.
Proof. unfold browsers. apply flat_map_app. Qed.

Lemma browsers_flat_map_quiet {A} (g : A -> list event) (l : list A) :
  (forall x, browsers (g x) = []) -> browsers (flat_map g l) = [].
Proof.
  intro H. induction l as [|x l IH]; [reflexivity|].
  cbn [flat_map]. now rewrite browsers_app, H, IH.
Qed.

Lemma commands_prompt_header d : commands (prompt_header d) = [].
Proof.
  unfold prompt_header, menu_events. rewrite !commands_app.
  now rewrite commands_flat_map_quiet.
Qed.

Lemma commands_prompt_footer d : commands (prompt_footer d) = [].
Proof.
  unfold prompt_footer, chosen_events. rewrite !commands_app.
  rewrite commands_flat_map_quiet; [reflexivity|].
  intro s. now destruct (selected s).
Qed.

Lemma commands_select_round line d : commands (snd (select_round line d)) = [].
Proof.
  unfold select_round.
  destruct (list_eq_dec N.eq_dec _ _); [reflexivity|].
  destruct (Py.strip (Py.chars line)); [reflexivity|].
  destruct (parse_selections _ _ _) as [[e|u] d2]; [reflexivity|].
  now destruct (any_selected d2).
Qed.

Lemma commands_select_loop script d :
  commands (snd (select_loop script d)) = [].
Proof.
  revert d. induction script as [|[line|] rest IH]; intro d; try reflexivity.
  cbn [select_loop]. pose proof (commands_select_round line d) as H.
  destruct (select_round line d) as [[[| |e] d'] t]; cbn [snd] in *;
    try exact H.
  specialize (IH d'). destruct (select_loop rest d') as [[r s] t'].
  cbn [snd] in *. change (ReadLine :: t ++ t') with ([ReadLine] ++ t ++ t').
  now rewrite !commands_app, H, IH.
Qed.

(** The prompt launches nothing. *)
Lemma commands_select_services st :
  commands (trace (select_services env st)) = [].
Proof.
  rewrite select_services_unfold.
  pose proof (commands_select_loop (stdin st) (services st)) as H.
  destruct (select_loop (stdin st) (services st)) as [[[e|u] [d rest]] t];
    unfold trace; cbn [snd] in *;
    now rewrite !commands_app, commands_prompt_header, H,
                ?commands_prompt_footer.
Qed.

Lemma commands_probes l : commands (map probe l) = [].
Proof. induction l as [|s l IH]; [reflexivity|exact IH]. Qed.

(** The poller launches nothing. *)
Lemma commands_wait_for_services st :
  commands (trace (wait_for_services env st)) = [].
Proof.
  rewrite wait_for_services_unfold.
  destruct (poll_shape env 24 (seq 0 24) st) as (failed & rest & _ & _ & _ & ->).
  unfold trace. cbn [snd]. rewrite !commands_app.
  rewrite commands_flat_map_quiet.
  - destruct rest; [reflexivity|]. now rewrite commands_app, commands_probes.
  - intro a. now rewrite commands_app, commands_probes.
Qed.

(** The summary: it never raises, launches nothing, keeps the catalog,
    and opens the browser only on an entered line. *)
Lemma show_success_message_spec st :
  exists st' t,
    show_success_message env st = (inr tt, st', t)
    /\ services st' = services st
    /\ commands t = []
    /\ browsers t
       = match poll_targets (services st), stdin st with
         | first :: _, Line _ :: _ => [(local_ip env, port first)]
         | _, _ => []
         end.
Proof.
  unfold show_success_message, clear_screen, print, log_info.
  fold (local_ip env). fold (poll_targets (services st)).
  do 3 bind_step. erewrite bind_ok by reflexivity.
  cbn [result final trace fst snd].
  erewrite bind_ok by reflexivity. cbn [result final trace fst snd].
  erewrite bind_ok
    by (apply (for_each_log _ _
                 (fun service =>
                    [ServiceUrl (name service) (local_ip env) (port service)]));
        reflexivity).
  cbn [result final trace fst snd]. do 2 bind_step.
  erewrite bind_ok
    by (instantiate (1 := [if gpu_available st
                           then Print "  - GPU: NVIDIA GPU with CUDA support"
                           else Print "  - Mode: CPU-only deployment"]);
        instantiate (1 := st); instantiate (1 := tt);
        destruct (gpu_available st); reflexivity).
  cbn [result final trace fst snd]. do 2 bind_step.
  change (filter selected (values (services st)))
    with (poll_targets (services st)).
  change (match gethostbyname env with
          | Some ip => ip
          | None => "localhost"
          end) with (local_ip env).
  assert (Q : forall tail : list event,
             commands tail = [] ->
             commands
               ([ClearScreen] ++ [Print "CLARAVERSE DEPLOYMENT SUCCESSFUL!"] ++
                [Print "Your selected ClaraVerse services are now running:"] ++
                [] ++ [] ++
                flat_map (fun service =>
                            [ServiceUrl (name service) (local_ip env) (port service)])
                         (poll_targets (services st)) ++
                [Print "Quick Management Commands:"] ++
                [Print "System Specifications:"] ++
                [if gpu_available st
                 then Print "  - GPU: NVIDIA GPU with CUDA support"
                 else Print "  - Mode: CPU-only deployment"] ++
                [Print (String.append "  - Services: "
                          (Py.join ", " (map name (poll_targets (services st)))))] ++
                [Print "Thank you for using ClaraVerse! Happy creating!"] ++ tail)
             = []).
  { intros tail Ht. rewrite !commands_app, Ht.
    rewrite commands_flat_map_quiet by reflexivity.
    now destruct (gpu_available st). }
  assert (B : forall tail : list event,
             browsers
               ([ClearScreen] ++ [Print "CLARAVERSE DEPLOYMENT SUCCESSFUL!"] ++
                [Print "Your selected ClaraVerse services are now running:"] ++
                [] ++ [] ++
                flat_map (fun service =>
                            [ServiceUrl (name service) (local_ip env) (port service)])
                         (poll_targets (services st)) ++
                [Print "Quick Management Commands:"] ++
                [Print "System Specifications:"] ++
                [if gpu_available st
                 then Print "  - GPU: NVIDIA GPU with CUDA support"
                 else Print "  - Mode: CPU-only deployment"] ++
                [Print (String.append "  - Services: "
                          (Py.join ", " (map name (poll_targets (services st)))))] ++
                [Print "Thank you for using ClaraVerse! Happy creating!"] ++ tail)
             = browsers tail).
  { intros tail. rewrite !browsers_app.
    rewrite browsers_flat_map_quiet by reflexivity.
    now destruct (gpu_available st). }
  destruct (poll_targets (services st)) as [|first chosen] eqn:Hp.
  - do 2 eexists. split; [reflexivity|]. cbn [ret].
    split; [reflexivity|]. split; [now apply Q | now rewrite B].
  - unfold input_or_pass. destruct st as [d da ga os inp].
    cbn [stdin services gpu_available] in *.
    destruct inp as [|[l|] rest].
    + erewrite bind_ok by reflexivity. cbn [result final trace fst snd ret].
      do 2 eexists. split; [reflexivity|].
      split; [reflexivity|]. split; [now apply Q | now rewrite B].
    + erewrite bind_ok by reflexivity. cbn [result final trace fst snd].
      bind_step.
      destruct (browser_ok env); cbn [emit ret];
        do 2 eexists; (split; [reflexivity|]);
        (split; [reflexivity|]); (split; [now apply Q | now rewrite B]).
    + erewrite bind_ok by reflexivity. cbn [result final trace fst snd ret].
      do 2 eexists. split; [reflexivity|].
      split; [reflexivity|]. split; [now apply Q | now rewrite B].
Qed.

End CommandFacts.

(** ** The four ways a run ends *)

Section RunCases.

Variable env : Env.

Lemma run_cases st :
  let tcd := trace (check_docker env st) in
  let tgpu := trace (check_gpu env (with_docker_available true st)) in
  (docker_ok env = false
   /\ run env st = (inr false, with_docker_available false st, run_intro ++ tcd))
  \/ (docker_ok env = true
      /\ exists e st1 ts,
           select_services env (probed env st) = (inl e, st1, ts)
           /\ run env st
              = (inr false, st1,
                 (run_intro ++ tcd ++ tgpu ++ ts) ++ [handler_event e]))
  \/ (docker_ok env = true
      /\ exists st1 ts,
           select_services env (probed env st) = (inr tt, st1, ts)
           /\ deploy_ok env (services st1) = false
           /\ run env st
              = (inr false, st1,
                 run_intro ++ tcd ++ tgpu ++ ts
                 ++ trace (deploy_services env st1)))
  \/ (docker_ok env = true
      /\ exists st1 ts,
           select_services env (probed env st) = (inr tt, st1, ts)
           /\ deploy_ok env (services st1) = true
           /\ run env st
              = (inr true, final (show_success_message env st1),
                 run_intro ++ tcd ++ tgpu ++ ts
                 ++ trace (deploy_services env st1)
                 ++ trace (wait_for_services env st1)
                 ++ trace (show_success_message env st1))).
Proof.
  cbv zeta. unfold run. rewrite run_body_spec.
  destruct (docker_ok env); [|left; split; reflexivity].
  right.
  destruct (select_services env (probed env st)) as [[[e|[]] st1] ts].
  - left. split; [reflexivity|]. exists e, st1, ts. split; [reflexivity|].
    destruct e; reflexivity.
  - right. destruct (deploy_ok env (services st1)) eqn:Hdep.
    + right. split; [reflexivity|]. exists st1, ts. repeat split; assumption.
    + left. split; [reflexivity|]. exists st1, ts. repeat split; assumption.
Qed.

Lemma run_result st :
  result (run env st) = inr (docker_ok env && selection_deploys env st).
Proof.
  unfold run, selection_deploys. rewrite run_body_spec.
  destruct (docker_ok env); [|reflexivity].
  rewrite select_services_unfold.
  change (services (probed env st)) with (services st).
  change (stdin (probed env st)) with (stdin st).
  destruct (select_loop (stdin st) (services st)) as [[[e|[]] [d rest]] t].
  - destruct e; reflexivity.
  - change (services (with_stdin rest (with_services d (probed env st))))
      with d.
    destruct (deploy_ok env d); reflexivity.
Qed.

Lemma select_services_keys st :
  keys (services (final (select_services env st))) = keys (services st).
Proof.
  rewrite select_services_unfold.
  pose proof (select_loop_keeps (stdin st) (services st)) as Hk.
  destruct (select_loop (stdin st) (services st)) as [[r [d rest]] t].
  cbn [fst snd] in Hk.
  assert (keys d = keys (services st))
    by (rewrite <- (keys_set_all false d), Hk; apply keys_set_all).
  destruct r as [e|u]; assumption.
Qed.

Lemma selected_ids_incl d : incl (selected_ids d) (keys d).
Proof.
  unfold selected_ids, keys. intros k Hk. apply in_map_iff in Hk.
  destruct Hk as (kv & <- & Hin). apply filter_In in Hin.
  apply in_map. apply Hin.
Qed.

Lemma commands_check_gpu st : commands (trace (check_gpu env st)) = [nvidia_smi].
Proof. rewrite check_gpu_spec. unfold trace. cbn. now destruct (gpu_ok env). Qed.

Lemma commands_check_docker st :
  commands (trace (check_docker env st))
  = if command_ok env docker_version
    then [docker_version; docker_ps] else [docker_version].
Proof. destruct (check_docker_spec env st) as (t & -> & H & _). exact H. Qed.

Lemma commands_deploy_services st :
  commands (trace (deploy_services env st))
  = match selected_ids (services st) with
    | [] => []
    | id :: more =>
        pull_command (id :: more)
        :: (if command_ok env (pull_command (id :: more))
            then [up_command (id :: more)] else [])
    end.
Proof.
  destruct (selected_ids (services st)) as [|id ids] eqn:H.
  - now rewrite (deploy_services_nothing_selected env st H).
  - rewrite deploy_services_selected by (rewrite H; discriminate).
    rewrite H. unfold trace. cbn [snd].
    destruct (command_ok env (pull_command (id :: ids)));
      [destruct (command_ok env (up_command (id :: ids)))|]; reflexivity.
Qed.

Lemma commands_show_success_message st :
  commands (trace (show_success_message env st)) = [].
Proof.
  destruct (show_success_message_spec env st) as (st' & t & -> & _ & H & _).
  exact H.
Qed.

End RunCases.

(** ** Programs started other than through [run_command] *)

Section UiPrograms.

Variable env : Env.

Lemma ui_programs_app t1 t2 :
  ui_programs (t1 ++ t2) = ui_programs t1 ++ ui_programs t2.
Proof. unfold ui_programs. apply flat_map_app. Qed.

Lemma ui_programs_flat_map_quiet {A} (g : A -> list event) (l : list A) :
  (forall x, ui_programs (g x) = []) -> ui_programs (flat_map g l) = [].
Proof.
  intro H. induction l as [|x l IH]; [reflexivity|].
  cbn [flat_map]. now rewrite ui_programs_app, H, IH.
Qed.

Lemma ui_programs_probes l : ui_programs (map probe l) = [].
Proof. induction l as [|s l IH]; [reflexivity|exact IH]. Qed.

Lemma ui_programs_check_docker st :
  ui_programs (trace (check_docker env st)) = [].
Proof.
  unfold check_docker, print, log_error, log_warning, log_info,
    print_docker_install_instructions.
  bind_step. erewrite bind_ok by apply run_command_spec.
  cbn [result final trace fst snd].
  destruct (command_ok env ["docker"; "--version"]); cbn [negb].
  - erewrite bind_ok by apply run_command_spec.
    cbn [result final trace fst snd].
    destruct (command_ok env ["docker"; "ps"]); reflexivity.
  - bind_step. unfold bind, get, emit, ret.
    destruct (String.eqb (os_type st) "windows");
      [|destruct (String.eqb (os_type st) "darwin")]; reflexivity.
Qed.

Lemma ui_programs_check_gpu st : ui_programs (trace (check_gpu env st)) = [].
Proof. rewrite check_gpu_spec. unfold trace. cbn. now destruct (gpu_ok env). Qed.

Lemma ui_programs_select_round line d :
  ui_programs (snd (select_round line d)) = [].
Proof.
  unfold select_round.
  destruct (list_eq_dec N.eq_dec _ _); [reflexivity|].
  destruct (Py.strip (Py.chars line)); [reflexivity|].
  destruct (parse_selections _ _ _) as [[e|u] d2]; [reflexivity|].
  now destruct (any_selected d2).
Qed.

Lemma ui_programs_select_loop script d :
  ui_programs (snd (select_loop script d)) = [].
Proof.
  revert d. induction script as [|[line|] rest IH]; intro d; try reflexivity.
  cbn [select_loop]. pose proof (ui_programs_select_round line d) as H.
  destruct (select_round line d) as [[[| |e] d'] t]; cbn [snd] in *;
    try exact H.
  specialize (IH d'). destruct (select_loop rest d') as [[r s] t'].
  cbn [snd] in *. change (ReadLine :: t ++ t') with ([ReadLine] ++ t ++ t').
  now rewrite !ui_programs_app, H, IH.
Qed.

Lemma ui_programs_select_services st :
  ui_programs (trace (select_services env st)) = [].
Proof.
  rewrite select_services_unfold.
  pose proof (ui_programs_select_loop (stdin st) (services st)) as H.
  assert (Hh : forall d, ui_programs (prompt_header d) = []).
  { intro d. unfold prompt_header, menu_events. rewrite !ui_programs_app.
    now rewrite ui_programs_flat_map_quiet. }
  assert (Hf : forall d, ui_programs (prompt_footer d) = []).
  { intro d. unfold prompt_footer, chosen_events. rewrite !ui_programs_app.
    rewrite ui_programs_flat_map_quiet; [reflexivity|].
    intro s. now destruct (selected s). }
  destruct (select_loop (stdin st) (services st)) as [[[e|u] [d rest]] t];
    unfold trace; cbn [snd] in *;
    now rewrite !ui_programs_app, Hh, H, ?Hf.
Qed.

Lemma ui_programs_deploy_services st :
  ui_programs (trace (deploy_services env st)) = [].
Proof.
  destruct (selected_ids (services st)) as [|id ids] eqn:H.
  - now rewrite (deploy_services_nothing_selected env st H).
  - rewrite deploy_services_selected by (rewrite H; discriminate).
    rewrite H. unfold trace. cbn [snd].
    destruct (command_ok env (pull_command (id :: ids)));
      [destruct (command_ok env (up_command (id :: ids)))|]; reflexivity.
Qed.

Lemma ui_programs_wait_for_services st :
  ui_programs (trace (wait_for_services env st)) = [].
Proof.
  rewrite wait_for_services_unfold.
  destruct (poll_shape env 24 (seq 0 24) st) as (failed & rest & _ & _ & _ & ->).
  unfold trace. cbn [snd]. rewrite !ui_programs_app.
  rewrite ui_programs_flat_map_quiet.
  - destruct rest; [reflexivity|].
    now rewrite ui_programs_app, ui_programs_probes.
  - intro a. now rewrite ui_programs_app, ui_programs_probes.
Qed.

(** The summary clears the screen once and opens at most one browser. *)
Lemma ui_programs_show_success_message st :
  ui_programs (trace (show_success_message env st))
  = ScreenClear
    :: match poll_targets (services st), stdin st with
       | first :: _, Line _ :: _ => [Browser (local_ip env) (port first)]
       | _, _ => []
       end.
Proof.
  unfold show_success_message, clear_screen, print, log_info.
  do 3 bind_step. erewrite bind_ok by reflexivity.
  cbn [result final trace fst snd].
  erewrite bind_ok by reflexivity. cbn [result final trace fst snd].
  erewrite bind_ok
    by (apply (for_each_log _ _
                 (fun service =>
                    [ServiceUrl (name service) (local_ip env) (port service)]));
        reflexivity).
  cbn [result final trace fst snd]. do 2 bind_step.
  erewrite bind_ok
    by (instantiate (1 := [if gpu_available st
                           then Print "  - GPU: NVIDIA GPU with CUDA support"
                           else Print "  - Mode: CPU-only deployment"]);
        instantiate (1 := st); instantiate (1 := tt);
        destruct (gpu_available st); reflexivity).
  cbn [result final trace fst snd]. do 2 bind_step.
  change (filter selected (values (services st)))
    with (poll_targets (services st)).
  change (match gethostbyname env with
          | Some ip => ip
          | None => "localhost"
          end) with (local_ip env).
  rewrite !ui_programs_app.
  rewrite ui_programs_flat_map_quiet by reflexivity.
  assert (G : ui_programs
                [if gpu_available st
                 then Print "  - GPU: NVIDIA GPU with CUDA support"
                 else Print "  - Mode: CPU-only deployment"] = [])
    by now destruct (gpu_available st).
  rewrite G. cbn [ui_programs flat_map app].
  fold (ui_programs
          (snd (match poll_targets (services st) with
                | [] => ret tt
                | first_service :: _ =>
                    bind input_or_pass
                      (fun entered =>
                         if entered
                         then bind (emit (OpenBrowser (local_ip env)
                                                      (port first_service)))
                                (fun _ =>
                                   if browser_ok env
                                   then emit (LogInfo
                                                (String.append "Browser opened to "
                                                   (name first_service)))
                                   else ret tt)
                         else ret tt)
                end env st))).
  f_equal.
  destruct (poll_targets (services st)) as [|first chosen]; [reflexivity|].
  unfold input_or_pass. destruct st as [d da ga os inp]. cbn [stdin].
  destruct inp as [|[l|] rest].
  - reflexivity.
  - unfold bind, emit, ret. cbn [stdin].
    destruct (browser_ok env); reflexivity.
  - reflexivity.
Qed.

(** A run clears the screen at its start and, when it succeeds, once more
    for the summary, where it may open one browser; it starts nothing
    else outside [run_command]. *)
Lemma ui_programs_run st :
  ui_programs (trace (run env st))
  = ScreenClear
    :: (if docker_ok env && selection_deploys env st
        then ui_programs
               (trace (show_success_message env
                         (final (select_services env (probed env st)))))
        else []).
Proof.
  pose proof (run_result env st) as Hres.
  destruct (run_cases env st)
    as [[Hd E]|[[Hd (e & st1 & ts & Hs & E)]
       |[[Hd (st1 & ts & Hs & Hdep & E)]|[Hd (st1 & ts & Hs & Hdep & E)]]]];
    rewrite E in Hres |- *; unfold result in Hres; cbn [fst] in Hres;
    injection Hres as Hb; rewrite <- Hb;
    unfold trace at 1; cbn [snd];
    pose proof (ui_programs_select_services (probed env st)) as Hq;
    try (rewrite Hs in Hq; unfold trace in Hq; cbn [snd] in Hq);
    rewrite !ui_programs_app, ?ui_programs_check_docker, ?ui_programs_check_gpu,
      ?Hq, ?ui_programs_deploy_services, ?ui_programs_wait_for_services;
    try (rewrite Hs; unfold final at 1; cbn [fst snd]);
    cbn [run_intro ui_programs flat_map app];
    try reflexivity.
  destruct e; reflexivity.
Qed.

End UiPrograms.

(** The commands of a run, in order, are a prefix of the five the flow
    knows. *)
Lemma run_commands_prefix (env : Env) (st : Installer) :
  exists ids rest,
    incl ids (keys (services st))
    /\ [docker_version; docker_ps; nvidia_smi;
        pull_command ids; up_command ids]
       = commands (trace (run env st)) ++ rest.
Proof.
  destruct (run_cases env st)
    as [[Hd ->]|[[Hd (e & st1 & ts & Hs & ->)]
       |[[Hd (st1 & ts & Hs & Hdep & ->)]|[Hd (st1 & ts & Hs & Hdep & ->)]]]];
    unfold trace at 1; cbn [snd];
    rewrite !commands_app, ?commands_check_docker, ?commands_check_gpu.
  - exists []. destruct (command_ok env docker_version);
      eexists; (split; [easy | reflexivity]).
  - apply andb_prop in Hd. destruct Hd as [-> _].
    pose proof (commands_select_services env (probed env st)) as Hq.
    rewrite Hs in Hq. unfold trace in Hq. cbn [snd] in Hq. rewrite Hq.
    exists []. destruct e; eexists; (split; [easy | reflexivity]).
  - apply andb_prop in Hd. destruct Hd as [-> _].
    pose proof (commands_select_services env (probed env st)) as Hq.
    rewrite Hs in Hq. unfold trace in Hq. cbn [snd] in Hq. rewrite Hq.
    pose proof (select_services_keys env (probed env st)) as Hk.
    rewrite Hs in Hk. unfold final in Hk. cbn [fst snd] in Hk.
    rewrite commands_deploy_services.
    exists (selected_ids (services st1)).
    assert (Hin : incl (selected_ids (services st1)) (keys (services st)))
      by (change (keys (services st)) with (keys (services (probed env st)));
          rewrite <- Hk; apply selected_ids_incl).
    destruct (selected_ids (services st1)) as [|id ids];
      [|destruct (command_ok env (pull_command (id :: ids)))];
      eexists; (split; [exact Hin | reflexivity]).
  - apply andb_prop in Hd. destruct Hd as [-> _].
    pose proof (commands_select_services env (probed env st)) as Hq.
    rewrite Hs in Hq. unfold trace in Hq. cbn [snd] in Hq. rewrite Hq.
    pose proof (select_services_keys env (probed env st)) as Hk.
    rewrite Hs in Hk. unfold final in Hk. cbn [fst snd] in Hk.
    rewrite commands_deploy_services, commands_wait_for_services,
      commands_show_success_message.
    exists (selected_ids (services st1)).
    assert (Hin : incl (selected_ids (services st1)) (keys (services st)))
      by (change (keys (services st)) with (keys (services (probed env st)));
          rewrite <- Hk; apply selected_ids_incl).
    unfold deploy_ok in Hdep.
    destruct (selected_ids (services st1)) as [|id ids]; [discriminate|].
    apply andb_prop in Hdep. destruct Hdep as [-> _].
    exists []. split; [exact Hin | reflexivity].
Qed.

(** X9: the child processes a run starts through [run_command] come in
    one fixed order and each at most once: the two runtime probes, the
    accelerator probe, the pull and the start, the last two with the same
    identifiers, taken from the catalog; whatever the environment and the
    operator do, they are a prefix of that list.  Outside [run_command] a
    run starts the screen clear of its first step and nothing more when
    it fails; when it succeeds, a second screen clear and at most one
    browser, both of the summary. *)
Theorem run_commands_in_order (env : Env) (st : Installer) :
  (exists ids rest,
     incl ids (keys (services st))
     /\ [docker_version; docker_ps; nvidia_smi;
         pull_command ids; up_command ids]
        = commands (trace (run env st)) ++ rest)
  /\ (result (run env st) = inr false ->
      ui_programs (trace (run env st)) = [ScreenClear])
  /\ (result (run env st) = inr true ->
      exists opened,
        ui_programs (trace (run env st)) = ScreenClear :: ScreenClear :: opened
        /\ List.length opened <= 1).
Proof.
  split; [apply run_commands_prefix|].
  rewrite run_result, ui_programs_run.
  destruct (docker_ok env && selection_deploys env st).
  - split; [discriminate|]. intros _.
    rewrite ui_programs_show_success_message.
    set (st1 := final (select_services env (probed env st))).
    destruct (poll_targets (services st1)) as [|first chosen];
      [|destruct (stdin st1) as [|[l|] rest]];
      eexists; (split; [reflexivity | cbn; lia]).
  - split; [reflexivity | discriminate].
Qed.

(** X10: [run] never raises, and it returns [True] exactly when the
    runtime probe passes and the prompt ends with a selection that pull
    and start both accept; the exit code of [main] is 0 in that case and
    1 in every other. *)
Theorem run_outcome (env : Env) (os : string) (script : list console_input) :
  let st := init os script in
  result (run env st) = inr (docker_ok env && selection_deploys env st)
  /\ (main env os script = 0%Z <->
      docker_ok env = true /\ selection_deploys env st = true)
  /\ (main env os script = 0%Z \/ main env os script = 1%Z).
Proof.
  cbv zeta. unfold main. rewrite run_result.
  destruct (docker_ok env); destruct (selection_deploys env (init os script));
    cbn [andb]; repeat split; intros; try discriminate; auto;
    match goal with H : _ /\ _ |- _ => destruct H; discriminate end.
Qed.

(** X11: the result of a run does not depend on the health answers, on
    the accelerator probe, on the address resolution or on the browser:
    two environments whose commands other than the accelerator diagnostic
    behave alike give the same result. *)
Theorem run_result_ignores_health_and_gpu (env env' : Env) (st : Installer) :
  (forall command,
     command <> nvidia_smi ->
     subprocess_run env command = subprocess_run env' command) ->
  result (run env st) = result (run env' st).
Proof.
  intro H.
  assert (Hok : forall command, command <> nvidia_smi ->
                  command_ok env command = command_ok env' command).
  { intros command Hc. unfold command_ok. now rewrite (H command Hc). }
  rewrite !run_result. f_equal. f_equal.
  - unfold docker_ok. rewrite !Hok; [reflexivity | discriminate | discriminate].
  - unfold selection_deploys.
    destruct (select_loop (stdin st) (services st)) as [[[e|u] [d rest]] t];
      [reflexivity|].
    unfold deploy_ok. destruct (selected_ids d) as [|id ids]; [reflexivity|].
    rewrite !Hok; [reflexivity | discriminate | discriminate].
Qed.

(** Healthy services and a GPU against dead endpoints and no GPU. *)
Lemma run_result_ignores_health_and_gpu_witness :
  let env := mkEnv (fun _ => Completed 0 "NVIDIA") (fun _ _ _ => Status 200)
                   (Some "10.0.0.5") true in
  let env' := mkEnv (fun command =>
                       if list_eq_dec String.string_dec command nvidia_smi
                       then TimeoutExpired else Completed 0 "NVIDIA")
                    (fun _ _ _ => NetworkError) None false in
  result (run env (init "linux" [Line "2"]))
  = result (run env' (init "linux" [Line "2"])).
Proof.
  intros env env'. apply run_result_ignores_health_and_gpu.
  intros command Hc. cbn.
  destruct (list_eq_dec String.string_dec command nvidia_smi);
    [contradiction | reflexivity].
Defined.

(** ** Exceptions at the prompt, blank lines, and the summary *)

Section PromptOutcomes.

Variable env : Env.

Lemma select_services_selects st :
  services st <> [] ->
  result (select_services env st) = inr tt ->
  selected_ids (services (final (select_services env st))) <> [].
Proof.
  rewrite select_services_unfold.
  pose proof (@select_loop_selects (stdin st) (services st)) as Hs.
  destruct (select_loop (stdin st) (services st)) as [[r [d rest]] t].
  cbn [fst snd] in Hs. destruct r as [e|[]]; [discriminate|].
  intros Hne _. apply any_selected_ids. now apply Hs.
Qed.

Lemma select_round_blank line d :
  blank line ->
  select_round line d = (Continue, d, [LogError "Please enter a selection."]).
Proof.
  unfold blank, select_round. intros ->.
  destruct (list_eq_dec N.eq_dec _ _) as [E|_]; [discriminate E | reflexivity].
Qed.

End PromptOutcomes.

(** X12: blank submissions are skipped: each costs one read and one error
    line and leaves every flag as it was, and the prompt then goes on with
    the rest of the script.  A script of blank lines only therefore ends
    in [EOFError] with the catalog untouched. *)
Theorem blank_lines_are_skipped
    (lines : list string) (rest : list console_input) (d : catalog) :
  Forall blank lines ->
  select_loop (map Line lines ++ rest) d
  = (fst (fst (select_loop rest d)), snd (fst (select_loop rest d)),
     flat_map (fun _ => [ReadLine; LogError "Please enter a selection."]) lines
     ++ snd (select_loop rest d))
  /\ select_loop (map Line lines) d
     = (inl EOFError, (d, []),
        flat_map (fun _ => [ReadLine; LogError "Please enter a selection."]) lines
        ++ [ReadLine]).
Proof.
  intro H.
  assert (G : forall rest',
             select_loop (map Line lines ++ rest') d
             = (fst (fst (select_loop rest' d)), snd (fst (select_loop rest' d)),
                flat_map (fun _ => [ReadLine; LogError "Please enter a selection."])
                         lines
                ++ snd (select_loop rest' d))).
  { intro rest'. induction H as [|line lines Hb _ IH].
    - cbn [map app flat_map]. now destruct (select_loop rest' d) as [[r s] t].
    - cbn [map app flat_map select_loop].
      rewrite (select_round_blank d Hb), IH. reflexivity. }
  split; [apply G|].
  rewrite <- (app_nil_r (map Line lines)), G. reflexivity.
Qed.

(** Two presses of Enter, then [3]. *)
Lemma blank_lines_are_skipped_witness :
  fst (snd (fst (select_loop [Line EmptyString; Line "  "; Line "3"]
                             initial_services)))
  = select_key "clara_n8n" initial_services.
Proof.
  destruct (@blank_lines_are_skipped [EmptyString; "  "] [Line "3"]
              initial_services) as [E _].
  - repeat constructor.
  - cbn [map app] in E. rewrite E. reflexivity.
Defined.

(** How [run] ends when the prompt raises. *)
Lemma run_prompt_exception (env : Env) (st : Installer) (e : exn) :
  docker_ok env = true ->
  result (select_services env (probed env st)) = inl e ->
  result (run env st) = inr false
  /\ (exists before, trace (run env st) = before ++ [handler_event e])
  /\ commands (trace (run env st)) = [docker_version; docker_ps; nvidia_smi].
Proof.
  intros Hd He.
  destruct (run_cases env st)
    as [[Hd' _]|[[_ (e' & st1 & ts & Hs & E)]
       |[[_ (st1 & ts & Hs & _)]|[_ (st1 & ts & Hs & _)]]]];
    try congruence;
    try (rewrite Hs in He; discriminate He).
  rewrite Hs in He. unfold result in He. cbn [fst] in He.
  inversion He. subst e'. rewrite E.
  split; [reflexivity|]. split; [eexists; reflexivity|].
  unfold trace at 1. cbn [snd].
  pose proof (commands_select_services env (probed env st)) as Hq.
  rewrite Hs in Hq. unfold trace in Hq. cbn [snd] in Hq.
  rewrite !commands_app, commands_check_docker, commands_check_gpu, Hq.
  apply andb_prop in Hd. destruct Hd as [-> _]. now destruct e.
Qed.

(** X13: an exception that leaves the prompt (the operator's interrupt,
    the end of the input, the [ValueError] of a superscript digit) is
    caught by [run]: it returns [False], its last output is the
    cancellation notice for an interrupt and the generic error report
    otherwise, the only child processes started through [run_command] are
    the three probes (no pull, no start), and outside [run_command] only
    the screen clear of the first step was started. *)
Theorem run_handles_prompt_exception (env : Env) (st : Installer) (e : exn) :
  docker_ok env = true ->
  result (select_services env (probed env st)) = inl e ->
  result (run env st) = inr false
  /\ (exists before, trace (run env st) = before ++ [handler_event e])
  /\ commands (trace (run env st)) = [docker_version; docker_ps; nvidia_smi]
  /\ ui_programs (trace (run env st)) = [ScreenClear].
Proof.
  intros Hd He.
  destruct (run_prompt_exception env st Hd He) as (Hr & Ht & Hc).
  repeat split; try assumption.
  rewrite ui_programs_run. rewrite run_result in Hr.
  injection Hr as ->. reflexivity.
Qed.

(** The operator presses Enter once and then interrupts. *)
Lemma run_handles_prompt_exception_witness :
  let env := mkEnv (fun _ => Completed 0 EmptyString) (fun _ _ _ => Status 200)
                   None true in
  let st := init "linux" [Line EmptyString; CtrlC; Line "1"] in
  result (run env st) = inr false
  /\ exists before,
       trace (run env st) = before ++ [Print "Installation cancelled by user"].
Proof.
  intros env st.
  destruct (@run_handles_prompt_exception env st KeyboardInterrupt)
    as (Hr & Ht & _ & _); [reflexivity | reflexivity |].
  split; [exact Hr | exact Ht].
Defined.

(** X14: the summary never raises and keeps the catalog.  It opens the
    browser at most once, and only when something is selected and the
    operator answered its prompt with a line: then on the first selected
    service, at the resolved address or [localhost].  An interrupt or the
    end of the input at that prompt is swallowed and opens nothing. *)
Theorem browser_opens_on_enter (env : Env) (st : Installer) :
  result (show_success_message env st) = inr tt
  /\ services (final (show_success_message env st)) = services st
  /\ browsers (trace (show_success_message env st))
     = match poll_targets (services st), stdin st with
       | first :: _, Line _ :: _ => [(local_ip env, port first)]
       | _, _ => []
       end.
Proof.
  destruct (show_success_message_spec env st) as (st' & t & -> & Hs & _ & Hb).
  repeat split; assumption.
Qed.

(** X15: in a run the driver's guard against an empty selection never
    fires: on a non-empty catalog, whenever the prompt returns, something
    is selected and the pull for it is launched. *)
Theorem prompt_return_launches_pull (env : Env) (st : Installer) :
  docker_ok env = true ->
  services st <> [] ->
  result (select_services env (probed env st)) = inr tt ->
  let ids := selected_ids (services (final (select_services env (probed env st)))) in
  ids <> []
  /\ In (pull_command ids) (commands (trace (run env st))).
Proof.
  intros Hd Hne Hr. cbv zeta.
  pose proof (select_services_selects env (probed env st) Hne Hr) as Hids.
  split; [exact Hids|].
  assert (G : forall st1 ts tail,
             select_services env (probed env st) = (inr tt, st1, ts) ->
             In (pull_command
                   (selected_ids
                      (services (final (select_services env (probed env st))))))
                (commands
                   (run_intro ++ trace (check_docker env st)
                    ++ trace (check_gpu env (with_docker_available true st))
                    ++ ts ++ trace (deploy_services env st1) ++ tail))).
  { intros st1 ts tail Hs. rewrite Hs in Hids |- *.
    unfold final in Hids |- *. cbn [fst snd] in Hids |- *.
    rewrite !commands_app, commands_deploy_services.
    destruct (selected_ids (services st1)) as [|id ids]; [congruence|].
    do 4 (apply in_or_app; right). apply in_or_app. left. now left. }
  destruct (run_cases env st)
    as [[Hd' _]|[[_ (e' & st1 & ts & Hs & E)]
       |[[_ (st1 & ts & Hs & _ & E)]|[_ (st1 & ts & Hs & _ & E)]]]].
  - congruence.
  - rewrite Hs in Hr. discriminate Hr.
  - rewrite E. unfold trace at 1. cbn [snd].
    rewrite <- (app_nil_r (trace (deploy_services env st1))).
    now apply G.
  - rewrite E. unfold trace at 1. cbn [snd]. now apply G.
Qed.

(** The operator selects the second service; the pull then fails. *)
Lemma prompt_return_launches_pull_witness :
  let env := mkEnv (fun command =>
                      if list_eq_dec String.string_dec command
                           (pull_command ["clara_python"])
                      then Completed 1 EmptyString else Completed 0 EmptyString)
                   (fun _ _ _ => Status 200) None true in
  let st := init "linux" [Line "2"] in
  In (pull_command ["clara_python"]) (commands (trace (run env st))).
Proof.
  intros env st.
  destruct (@prompt_return_launches_pull env st) as [_ H];
    [reflexivity | discriminate | reflexivity | exact H].
Defined.

(** ** The services deployed and the services polled *)

Section DeployedAndPolled.

Variable env : Env.

Lemma requests_failed_rounds_then_healthy max_attempts failed st :
  requests
    (flat_map (fun a => map probe (checked env a (services st))
                        ++ [ProgressBar (a + 1) max_attempts; Sleep 5])
              failed
     ++ map probe (poll_targets (services st))
     ++ [Print "[OK] All selected services are healthy and ready!"])
  = requests
      (flat_map (fun a => map probe (checked env a (services st))
                          ++ [ProgressBar (a + 1) max_attempts; Sleep 5])
                failed)
    ++ map endpoint (poll_targets (services st)).
Proof.
  rewrite !requests_app, requests_probes. cbn [requests flat_map].
  now rewrite app_nil_r.
Qed.

(** When some attempt is fully healthy, the poller ends with a round that
    requests every descriptor it iterates over. *)
Lemma wait_for_services_healthy_round st attempt :
  attempt < 24 ->
  forallb (healthy env attempt) (poll_targets (services st)) = true ->
  exists earlier,
    requests (trace (wait_for_services env st))
    = earlier ++ map endpoint (poll_targets (services st)).
Proof.
  intros Hlt Hok. rewrite wait_for_services_unfold.
  destruct (poll_shape env 24 (seq 0 24) st) as (failed & rest & Hs & Hf & _ & E).
  rewrite E. unfold trace. cbn [snd].
  destruct rest as [|a rest].
  - exfalso. rewrite app_nil_r in Hs. subst failed.
    rewrite (Hf attempt) in Hok; [discriminate|]. apply in_seq. lia.
  - rewrite requests_app, requests_failed_rounds_then_healthy.
    cbn [wait_header requests flat_map app]. eexists. reflexivity.
Qed.

End DeployedAndPolled.

(** C9 (as stated) fails: with all three services selected and deployed
    and the first one answering 503, every round stops at the first
    descriptor, so pull and start carry three identifiers while all 24
    requests of the poller go to the first endpoint; the other two
    services are never polled. *)
Lemma failing_first_service_hides_the_others :
  let env := mkEnv (fun _ => Completed 0 EmptyString)
                   (fun _ p _ => if Z.eqb p 8188 then Status 503 else Status 200)
                   None true in
  let st0 := init "linux" [Line "A"] in
  commands (trace (run env st0))
  = [docker_version; docker_ps; nvidia_smi;
     pull_command ["clara_comfyui"; "clara_python"; "clara_n8n"];
     up_command ["clara_comfyui"; "clara_python"; "clara_n8n"]]
  /\ requests (trace (run env st0)) = repeat (8188%Z, "/") 24
  /\ ~ In (5001%Z, "/health") (requests (trace (run env st0)))
  /\ ~ In (5678%Z, "/healthz") (requests (trace (run env st0))).
Proof.
  intros env st0.
  assert (E : requests (trace (run env st0)) = repeat (8188%Z, "/") 24)
    by (vm_compute; reflexivity).
  split; [vm_compute; reflexivity|]. split; [exact E|].
  rewrite E. split; intro H; apply repeat_spec in H; discriminate H.
Qed.

(** C9 (as amended): in a run whose deployment succeeds, pull and start
    are launched with exactly the identifiers of the subset selected when
    deployment begins, in catalog order; the driver leaves the installer
    as it is and the poller is started on that same object.  Every request
    of the poller goes to the endpoint of a service of that subset; each
    round requests a prefix of the subset (it stops at the first failure),
    and when some attempt finds all of them healthy the poller ends with a
    round that requests every one of them, in catalog order. *)
Theorem polled_endpoints_within_deployed_selection
    (env : Env) (st0 st1 : Installer) (ts : list event) :
  docker_ok env = true ->
  select_services env (probed env st0) = (inr tt, st1, ts) ->
  deploy_ok env (services st1) = true ->
  let subset := selected_subset (services st1) in
  trace (run env st0)
  = run_intro ++ trace (check_docker env st0)
    ++ trace (check_gpu env (with_docker_available true st0)) ++ ts
    ++ trace (deploy_services env st1)
    ++ trace (wait_for_services env st1)
    ++ trace (show_success_message env st1)
  /\ commands (trace (deploy_services env st1))
     = [pull_command (keys subset); up_command (keys subset)]
  /\ final (deploy_services env st1) = st1
  /\ incl (requests (trace (wait_for_services env st1)))
          (map endpoint (values subset))
  /\ (forall attempt,
        exists skipped,
          values subset = checked env attempt (services st1) ++ skipped
          /\ requests (trace (health_round attempt (services st1) env st1))
             = map endpoint (checked env attempt (services st1)))
  /\ (forall attempt,
        attempt < 24 ->
        forallb (healthy env attempt) (values subset) = true ->
        exists earlier,
          requests (trace (wait_for_services env st1))
          = earlier ++ map endpoint (values subset)).
Proof.
  intros Hd Hs Hdep subset. subst subset.
  rewrite <- poll_targets_subset.
  split; [now rewrite (run_after_deployment env st0 Hd Hs Hdep)|].
  split.
  { rewrite commands_deploy_services. unfold deploy_ok in Hdep.
    change (keys (selected_subset (services st1)))
      with (selected_ids (services st1)).
    destruct (selected_ids (services st1)) as [|id ids]; [discriminate|].
    apply andb_prop in Hdep. destruct Hdep as [-> _]. reflexivity. }
  split; [apply deploy_services_final|].
  split; [apply wait_for_services_requests|].
  split.
  { intro attempt.
    destruct (upto_first_failure_prefix (healthy env attempt)
                (poll_targets (services st1))) as [skipped Hsk].
    exists skipped. split; [exact Hsk|].
    rewrite health_round_spec. unfold trace. cbn [snd].
    apply requests_probes. }
  intros attempt Hlt Hok.
  exact (@wait_for_services_healthy_round env st1 attempt Hlt Hok).
Qed.

(** The operator submits [1,3] and both services answer 200: pull and
    start carry the first and third identifier, and the poller requests
    the first and third endpoint. *)
Lemma polled_endpoints_within_deployed_selection_witness :
  let env := mkEnv (fun _ => Completed 0 EmptyString) (fun _ _ _ => Status 200)
                   None true in
  let st0 := init "linux" [Line "1,3"] in
  let st1 := final (select_services env (probed env st0)) in
  commands (trace (deploy_services env st1))
  = [pull_command ["clara_comfyui"; "clara_n8n"];
     up_command ["clara_comfyui"; "clara_n8n"]]
  /\ exists earlier,
       requests (trace (wait_for_services env st1))
       = earlier ++ [(8188%Z, "/"); (5678%Z, "/healthz")].
Proof.
  intros env st0 st1.
  destruct (@polled_endpoints_within_deployed_selection env st0 st1
              (trace (select_services env (probed env st0))))
    as (_ & Hc & _ & _ & _ & Hh).
  - reflexivity.
  - reflexivity.
  - reflexivity.
  - split; [exact Hc|]. apply (Hh 0); [lia | reflexivity].
Defined.
